(** * TalentScout hiring assistant: the step machine, its validators,
      the question bank, the input sanitizer and the sentiment tagger.

    A shallow embedding of [chatbot.py] (class [TalentScoutChatbot]) and of
    the pure helpers of [utils.py].

    Modelling conventions.
    - A Python [str] is a [string] whose characters are read as the code
      points 0..255 (Latin-1).  The character classes ([str.isspace],
      [str.isdigit]) and [str.lower] are the ones CPython has on that range.
    - A value stored in the candidate dictionary is a [pyval]: a [str], a
      list of [str] or a [bool].  The dictionary itself is a
      [gmap string pyval].
    - A call that mutates [self] or a dictionary returns the new object and
      the new dictionary next to its result; a raised exception is the
      [Raise] outcome, and the mutations done before it are kept. *)

From Stdlib Require Import ZArith NArith Ascii String List Bool Lia.
From Stdlib Require Import DecimalString.
From stdpp Require Import base option list strings gmap.

Local Open Scope string_scope.

(** ** Python strings *)

Module PyStr.

Definition code (c : ascii) : N := N_of_ascii c.

(** [str.isspace] on one character. *)
Definition isspace (c : ascii) : bool :=
  let n := code c in
  ((9 <=? n) && (n <=? 13) || (28 <=? n) && (n <=? 32)
   || (n =? 133) || (n =? 160))%N.

(** [str.isdigit] on one character: the decimal digits and the
    superscripts one, two and three. *)
Definition isdigit (c : ascii) : bool :=
  let n := code c in
  ((48 <=? n) && (n <=? 57) || (n =? 178) || (n =? 179) || (n =? 185))%N.

(** [str.lower] on one character. *)
Definition lower_char (c : ascii) : ascii :=
  let n := code c in
  if ((65 <=? n) && (n <=? 90)
      || (192 <=? n) && (n <=? 222) && negb (n =? 215))%N
  then ascii_of_N (n + 32) else c.

Fixpoint lower (s : string) : string :=
  match s with
  | EmptyString => EmptyString
  | String c r => String (lower_char c) (lower r)
  end.

Fixpoint filter (p : ascii -> bool) (s : string) : string :=
  match s with
  | EmptyString => EmptyString
  | String c r => if p c then String c (filter p r) else filter p r
  end.

Fixpoint any (p : ascii -> bool) (s : string) : bool :=
  match s with
  | EmptyString => false
  | String c r => p c || any p r
  end.

Fixpoint all (p : ascii -> bool) (s : string) : bool :=
  match s with
  | EmptyString => true
  | String c r => p c && all p r
  end.

(** [needle in hay]. *)
Fixpoint contains (needle hay : string) : bool :=
  String.prefix needle hay ||
  match hay with
  | EmptyString => false
  | String _ r => contains needle r
  end.

(** [c in s] for a one-character needle. *)
Definition has_char (c : ascii) (s : string) : bool :=
  contains (String c EmptyString) s.

Fixpoint lstrip (s : string) : string :=
  match s with
  | EmptyString => EmptyString
  | String c r => if isspace c then lstrip r else s
  end.

Fixpoint rstrip (s : string) : string :=
  match s with
  | EmptyString => EmptyString
  | String c r =>
      match rstrip r with
      | EmptyString => if isspace c then EmptyString else String c EmptyString
      | r' => String c r'
      end
  end.

(** [s.strip()]. *)
Definition strip (s : string) : string := lstrip (rstrip s).

(** The field being read and the fields already completed to its right. *)
Fixpoint fields (sep : ascii) (s : string) : string * list string :=
  match s with
  | EmptyString => (EmptyString, [])
  | String c r =>
      let '(w, ws) := fields sep r in
      if Ascii.eqb c sep then (EmptyString, w :: ws) else (String c w, ws)
  end.

(** [s.split(sep)] for a one-character separator. *)
Definition split (sep : ascii) (s : string) : list string :=
  let '(w, ws) := fields sep s in w :: ws.

Definition push_word (w : string) (ws : list string) : list string :=
  match w with
  | EmptyString => ws
  | _ => w :: ws
  end.

Fixpoint words (s : string) : string * list string :=
  match s with
  | EmptyString => (EmptyString, [])
  | String c r =>
      let '(w, ws) := words r in
      if isspace c then (EmptyString, push_word w ws) else (String c w, ws)
  end.

(** [s.split()]: the maximal runs of non-space characters. *)
Definition split_ws (s : string) : list string :=
  let '(w, ws) := words s in push_word w ws.

(** [sep.join(l)]. *)
Definition join (sep : string) (l : list string) : string :=
  String.concat sep l.

(** [str(n)] for an [int]. *)
Definition of_int (n : Z) : string := NilZero.string_of_int (Z.to_int n).

(** The one-character strings of [s], as iterating over a [str] gives. *)
Fixpoint chars (s : string) : list string :=
  match s with
  | EmptyString => []
  | String c r => String c EmptyString :: chars r
  end.

End PyStr.

(** ** Regular expressions

    The part of [re] that the patterns of [utils.py] use: character
    classes, concatenation, alternation and repetition.  [matches r s] says
    whether the whole of [s] is in the language of [r]; it is computed with
    derivatives. *)

Module Re.

Inductive regex : Type :=
| Void
| Eps
| Class (p : ascii -> bool)
| Cat (r1 r2 : regex)
| Alt (r1 r2 : regex)
| Star (r : regex).

Definition Plus (r : regex) : regex := Cat r (Star r).

Definition Opt (r : regex) : regex := Alt r Eps.

Definition Lit (c : ascii) : regex := Class (Ascii.eqb c).

Fixpoint nullable (r : regex) : bool :=
  match r with
  | Void => false
  | Eps => true
  | Class _ => false
  | Cat r1 r2 => nullable r1 && nullable r2
  | Alt r1 r2 => nullable r1 || nullable r2
  | Star _ => true
  end.

Fixpoint deriv (c : ascii) (r : regex) : regex :=
  match r with
  | Void => Void
  | Eps => Void
  | Class p => if p c then Eps else Void
  | Cat r1 r2 =>
      if nullable r1 then Alt (Cat (deriv c r1) r2) (deriv c r2)
      else Cat (deriv c r1) r2
  | Alt r1 r2 => Alt (deriv c r1) (deriv c r2)
  | Star r1 => Cat (deriv c r1) (Star r1)
  end.

Fixpoint matches (r : regex) (s : string) : bool :=
  match s with
  | EmptyString => nullable r
  | String c s' => matches (deriv c r) s'
  end.

(** The language of a regular expression. *)
Inductive lang : regex -> string -> Prop :=
| lang_eps : lang Eps ""
| lang_class p c : p c = true -> lang (Class p) (String c "")
| lang_cat r1 r2 s1 s2 : lang r1 s1 -> lang r2 s2 -> lang (Cat r1 r2) (s1 +:+ s2)
| lang_alt_l r1 r2 s : lang r1 s -> lang (Alt r1 r2) s
| lang_alt_r r1 r2 s : lang r2 s -> lang (Alt r1 r2) s
| lang_star_nil r : lang (Star r) ""
| lang_star_cons r s1 s2 : lang r s1 -> lang (Star r) s2 -> lang (Star r) (s1 +:+ s2).

End Re.

(** ** [utils.py] *)

Module Utils.

(** [validate_phone]: between 10 and 15 digit characters. *)
Definition validate_phone (phone : string) : bool :=
  let digits := PyStr.filter PyStr.isdigit phone in
  (10 <=? String.length digits)%nat && (String.length digits <=? 15)%nat.

Definition is_gt (c : ascii) : bool := Ascii.eqb c ">".

(** [re.sub(r'<[^>]*>', '', text)].  The scan goes left to right.  Outside
    a match, a ["<"] starts a match exactly when some [">"] follows it (the
    class [[^>]] takes every other character, line breaks included);
    inside a match everything up to and including the first [">"] is
    dropped. *)
Fixpoint sub_tags (in_tag : bool) (s : string) : string :=
  match s with
  | EmptyString => EmptyString
  | String c r =>
      if in_tag then sub_tags (negb (is_gt c)) r
      else if Ascii.eqb c "<" && PyStr.any is_gt r then sub_tags true r
      else String c (sub_tags false r)
  end.

(** The class [[;\\\\/]] of the second substitution: semicolon, backslash
    and slash. *)
Definition is_special (c : ascii) : bool :=
  Ascii.eqb c ";" || Ascii.eqb c "\" || Ascii.eqb c "/".

(** [re.sub(r'[;\\\\/]', '', text)]. *)
Definition sub_special (s : string) : string :=
  PyStr.filter (fun c => negb (is_special c)) s.

Definition sanitize_input (text : string) : string :=
  let text := sub_tags false text in
  let text := sub_special text in
  PyStr.strip text.

Definition positive_words : gset string :=
  {[ "great"; "good"; "excellent"; "amazing"; "love"; "enjoy"; "passionate" ]}.

Definition negative_words : gset string :=
  {[ "bad"; "difficult"; "hard"; "problem"; "issue"; "challenging" ]}.

Definition analyze_sentiment (text : string) : string :=
  let words : gset string := list_to_set (PyStr.split_ws (PyStr.lower text)) in
  let positive_count := size (words ∩ positive_words) in
  let negative_count := size (words ∩ negative_words) in
  if (negative_count <? positive_count)%nat then "positive"
  else if (positive_count <? negative_count)%nat then "negative"
  else "neutral".

(** The classes of the e-mail pattern: [[a-zA-Z]], [[a-zA-Z0-9._%+-]] and
    [[a-zA-Z0-9.-]]. *)
Definition is_alpha (c : ascii) : bool :=
  let n := PyStr.code c in
  ((65 <=? n) && (n <=? 90) || (97 <=? n) && (n <=? 122))%N.

Definition is_alnum (c : ascii) : bool :=
  let n := PyStr.code c in
  is_alpha c || ((48 <=? n) && (n <=? 57))%N.

Definition is_local (c : ascii) : bool :=
  is_alnum c || Ascii.eqb c "." || Ascii.eqb c "_" || Ascii.eqb c "%"
  || Ascii.eqb c "+" || Ascii.eqb c "-".

Definition is_domain (c : ascii) : bool :=
  is_alnum c || Ascii.eqb c "." || Ascii.eqb c "-".

Definition newline : ascii := ascii_of_nat 10.

(** [r'^[a-zA-Z0-9._%+-]+@[a-zA-Z0-9.-]+\.[a-zA-Z]{2,}$'] under [re.match]:
    the match starts at the first character, and the final [$] holds at the
    end of the text or just before a line break that ends the text. *)
Definition email_pattern : Re.regex :=
  Re.Cat (Re.Plus (Re.Class is_local))
    (Re.Cat (Re.Lit "@")
       (Re.Cat (Re.Plus (Re.Class is_domain))
          (Re.Cat (Re.Lit ".")
             (Re.Cat (Re.Cat (Re.Class is_alpha)
                        (Re.Cat (Re.Class is_alpha) (Re.Star (Re.Class is_alpha))))
                (Re.Opt (Re.Lit newline)))))).

Definition validate_email (email : string) : bool :=
  Re.matches email_pattern email.

(** [validate_tech_stack] returns [list(set(...))]; the order in which a
    [set] of strings is listed is not fixed, so the result is given as the
    set of its entries. *)
Definition validate_tech_stack (tech_stack : string) : gset string :=
  let techs :=
    map (fun tech => PyStr.lower (PyStr.strip tech)) (PyStr.split "," tech_stack) in
  list_to_set (List.filter (fun tech => negb (tech =? "")%string) techs).

End Utils.

(** ** [chatbot.py] *)

(** The values a candidate dictionary holds. *)
Inductive pyval : Type :=
| VStr (s : string)
| VList (l : list string)
| VBool (b : bool).

Inductive exn : Type :=
| KeyError (key : string)
| TypeError
| IndexError.

Inductive outcome : Type :=
| Ok (reply : string)
| Raise (e : exn).

(** One entry of the transcript. *)
Record Message : Type := mkMessage {
  role : string;
  content : string;
  sentiment : option string
}.

(** [tech_questions_cache] is the empty [dict] until the questions are
    generated and a list afterwards. *)
Inductive cache : Type :=
| EmptyDict
| Questions (qs : list string).

(** The attributes of a [TalentScoutChatbot] that the turn logic uses. *)
Record chatbot : Type := mkChatbot {
  conversation_started : bool;
  current_step : string;
  tech_questions_cache : cache;
  current_question_index : Z
}.

Definition with_started (b : bool) (self : chatbot) : chatbot :=
  mkChatbot b (current_step self) (tech_questions_cache self)
            (current_question_index self).

Definition with_step (s : string) (self : chatbot) : chatbot :=
  mkChatbot (conversation_started self) s (tech_questions_cache self)
            (current_question_index self).

Definition with_cache (c : cache) (self : chatbot) : chatbot :=
  mkChatbot (conversation_started self) (current_step self) c
            (current_question_index self).

Definition with_index (i : Z) (self : chatbot) : chatbot :=
  mkChatbot (conversation_started self) (current_step self)
            (tech_questions_cache self) i.

(** The object [__init__] leaves behind once the model is loaded. *)
Definition init : chatbot := mkChatbot false "name" EmptyDict 0.

Definition nl : string := String (ascii_of_nat 10) EmptyString.

(** Truth value of the cache in [if not self.tech_questions_cache]. *)
Definition truthy (c : cache) : bool :=
  match c with
  | EmptyDict => false
  | Questions [] => false
  | Questions (_ :: _) => true
  end.

(** [len(self.tech_questions_cache)]. *)
Definition cache_len (c : cache) : Z :=
  match c with
  | EmptyDict => 0
  | Questions qs => Z.of_nat (length qs)
  end.

(** [l[i]] with Python's negative indices; [None] is [IndexError]. *)
Definition py_index {A : Type} (l : list A) (i : Z) : option A :=
  let n := Z.of_nat (length l) in
  if (0 <=? i)%Z then l !! Z.to_nat i
  else if (- n <=? i)%Z then l !! Z.to_nat (n + i)
  else None.

(** [self.tech_questions_cache[i]]; subscripting the empty [dict] with an
    [int] is a [KeyError]. *)
Definition cache_get (c : cache) (i : Z) : exn + string :=
  match c with
  | EmptyDict => inl (KeyError (PyStr.of_int i))
  | Questions qs =>
      match py_index qs i with
      | Some q => inr q
      | None => inl IndexError
      end
  end.

(** What slicing and iterating a dictionary value as [tech_stack] gives:
    a list is itself, a [str] is its characters, a [bool] cannot be
    subscripted. *)
Definition as_seq (v : pyval) : option (list string) :=
  match v with
  | VList l => Some l
  | VStr s => Some (PyStr.chars s)
  | VBool _ => None
  end.

Definition get_initial_greeting : string :=
  "Hello! I'm the TalentScout Hiring Assistant. I'll be helping with your initial screening process. "
  +:+ nl +:+ "Could you please tell me your full name to get started?".

Definition get_next_question (current_step : string) : string :=
  if (current_step =? "name")%string then "Could you please tell me your full name?"
  else if (current_step =? "email")%string then "What's your email address?"
  else if (current_step =? "phone")%string then "What's your phone number?"
  else if (current_step =? "experience")%string then
    "How many years of experience do you have in your field?"
  else if (current_step =? "position")%string then "What position(s) are you interested in?"
  else if (current_step =? "location")%string then "What's your current location?"
  else if (current_step =? "tech_stack")%string then
    "Please list your tech stack (programming languages, frameworks, databases, tools), separated by commas:"
  else "".

Definition validate_response (step response : string) : bool :=
  if (response =? "")%string then false
  else if (step =? "email")%string then
    PyStr.has_char "@" response && PyStr.has_char "." response
  else if (step =? "phone")%string then
    let digits := PyStr.filter PyStr.isdigit response in
    (10 <=? String.length digits)%nat
  else if (step =? "experience")%string then
    PyStr.any PyStr.isdigit response
  else true.

Definition tech_templates (tech : string) : list string :=
  [ "What are the main features and benefits of " +:+ tech +:+ "?";
    "Can you describe a challenging problem you solved using " +:+ tech +:+ "?";
    "What are some best practices when working with " +:+ tech +:+ "?" ].

Definition general_questions : list string :=
  [ "How do you approach learning new technologies?";
    "How do you ensure code quality in your projects?" ].

(** The loop [for tech in tech_stack[:3]: questions.extend(...)], then the two
    general questions, then [questions[:5]]. *)
Definition generate_tech_questions (tech_stack : list string)
    (experience_level : pyval) : list string :=
  let questions : list string := [] in
  let questions :=
    fold_left (fun qs tech => (qs ++ tech_templates tech)%list)
              (take 3 tech_stack) questions in
  let questions := (questions ++ general_questions)%list in
  take 5 questions.

Definition exit_keywords : list string :=
  [ "exit"; "quit"; "stop"; "bye"; "goodbye" ].

Definition should_end_conversation (user_input : string) : bool :=
  existsb (fun keyword => PyStr.contains keyword (PyStr.lower user_input)) exit_keywords.

Definition has_key (k : string) (d : gmap string pyval) : bool :=
  match d !! k with Some _ => true | None => false end.

(** Works on [candidate_info.copy()]: the argument is a value here, so the
    result is the copy and the argument is the untouched original. *)
Definition update_candidate_info (current_step user_input : string)
    (candidate_info : gmap string pyval) : gmap string pyval :=
  let updated_info := candidate_info in
  let updated_info :=
    if negb (has_key "tech_stack" updated_info)
    then <["tech_stack" := VList []]> updated_info else updated_info in
  let updated_info :=
    if negb (has_key "tech_questions_asked" updated_info)
    then <["tech_questions_asked" := VBool false]> updated_info else updated_info in
  if (current_step =? "name")%string then <["name" := VStr user_input]> updated_info
  else if (current_step =? "email")%string then <["email" := VStr user_input]> updated_info
  else if (current_step =? "phone")%string then <["phone" := VStr user_input]> updated_info
  else if (current_step =? "experience")%string then
    <["experience" := VStr user_input]> updated_info
  else if (current_step =? "position")%string then
    <["position" := VStr user_input]> updated_info
  else if (current_step =? "location")%string then
    <["location" := VStr user_input]> updated_info
  else if (current_step =? "tech_stack")%string then
    <["tech_stack" := VList (map PyStr.strip (PyStr.split "," user_input))]> updated_info
  else updated_info.

Definition step_sequence : list string :=
  [ "name"; "email"; "phone"; "experience"; "position"; "location";
    "tech_stack"; "tech_questions" ].

(** [l.index(x)]; [None] is [ValueError]. *)
Fixpoint index_of (x : string) (l : list string) : option nat :=
  match l with
  | [] => None
  | y :: r => if (y =? x)%string then Some 0%nat else S <$> index_of x r
  end.

Definition determine_next_step (current_step : string) : string :=
  match index_of current_step step_sequence with
  | Some current_index =>
      if (current_index <? length step_sequence - 1)%nat
      then nth (current_index + 1) step_sequence ""
      else current_step
  | None => "name"
  end.

Definition closing_message : string :=
  "Thank you for answering all the technical questions. "
  +:+ "Your responses have been recorded. The TalentScout team will review your "
  +:+ "application and get back to you soon. Is there anything else you'd like to mention?".

Definition farewell : string :=
  "Thank you for your time. The conversation has ended. Have a great day!".

Definition intro_message (tech_stack : list string) (q : string) : string :=
  "Great! Based on your tech stack (" +:+ PyStr.join ", " tech_stack +:+ "), "
  +:+ "I'd like to ask you a few technical questions." +:+ nl +:+ nl
  +:+ "Question 1: " +:+ q.

Definition next_message (index : Z) (q : string) : string :=
  "Thank you for your answer." +:+ nl +:+ nl
  +:+ "Question " +:+ PyStr.of_int (index + 1) +:+ ": " +:+ q.

(** Returns the new object, the dictionary it was given as that call leaves
    it, and the reply. *)
Definition handle_tech_questions (self : chatbot)
    (candidate_info : gmap string pyval) (user_response : string)
    : chatbot * gmap string pyval * outcome :=
  if negb (truthy (tech_questions_cache self)) then
    match candidate_info !! "tech_stack" with
    | None => (self, candidate_info, Raise (KeyError "tech_stack"))
    | Some tech_stack =>
        match candidate_info !! "experience" with
        | None => (self, candidate_info, Raise (KeyError "experience"))
        | Some experience =>
            match as_seq tech_stack with
            | None => (self, candidate_info, Raise TypeError)
            | Some techs =>
                let self := with_cache (Questions (generate_tech_questions techs experience)) self in
                let self := with_index 0 self in
                match cache_get (tech_questions_cache self) 0 with
                | inr q => (self, candidate_info, Ok (intro_message techs q))
                | inl e => (self, candidate_info, Raise e)
                end
            end
        end
    end
  else
    let self := with_index (current_question_index self + 1) self in
    if (cache_len (tech_questions_cache self) <=? current_question_index self)%Z then
      (self, <["tech_questions_asked" := VBool true]> candidate_info, Ok closing_message)
    else
      match cache_get (tech_questions_cache self) (current_question_index self) with
      | inr q => (self, candidate_info, Ok (next_message (current_question_index self) q))
      | inl e => (self, candidate_info, Raise e)
      end.

(** [messages[-1]["content"] if messages else ""]. *)
Definition last_content (messages : list Message) : string :=
  match last messages with
  | Some m => content m
  | None => ""
  end.

(** Returns the new object, the caller's dictionary as the call leaves it,
    and the reply. *)
Definition get_response (self : chatbot) (messages : list Message)
    (candidate_info : gmap string pyval)
    : chatbot * gmap string pyval * outcome :=
  if negb (conversation_started self) then
    (with_started true self, candidate_info, Ok get_initial_greeting)
  else
    let last_message := last_content messages in
    if should_end_conversation last_message then
      (self, candidate_info, Ok farewell)
    else if (current_step self =? "tech_questions")%string then
      handle_tech_questions self candidate_info last_message
    else if negb (validate_response (current_step self) last_message) then
      (self, candidate_info,
       Ok ("I'm sorry, but I need a valid " +:+ current_step self +:+ ". "
           +:+ get_next_question (current_step self)))
    else
      (* the local name is rebound to the copy; the caller keeps its own *)
      let updated := update_candidate_info (current_step self) last_message candidate_info in
      let self := with_step (determine_next_step (current_step self)) self in
      if (current_step self =? "tech_questions")%string then
        let '(self, _, reply) := handle_tech_questions self updated "" in
        (self, candidate_info, reply)
      else
        (self, candidate_info, Ok ("Thank you. " +:+ get_next_question (current_step self))).

(** The dictionary [app.py] creates for a new session. *)
Definition initial_candidate_info : gmap string pyval :=
  <["name" := VStr ""]> (<["email" := VStr ""]> (<["phone" := VStr ""]>
  (<["experience" := VStr ""]> (<["position" := VStr ""]> (<["location" := VStr ""]>
  (<["tech_stack" := VList []]> (<["tech_questions_asked" := VBool false]>
  (<["sentiment_history" := VList []]> ∅)))))))).

Definition user_says (text : string) : Message := mkMessage "user" text None.


(** ** Specification-side notions *)

(** Number of digit characters of a text. *)
Fixpoint digit_count (s : string) : nat :=
  match s with
  | EmptyString => 0
  | String c r => (if PyStr.isdigit c then 1 else 0) + digit_count r
  end.


(** Number of the keywords of [kws] that are a token of [text], each
    keyword counted once however often it is repeated in the text. *)
Definition keyword_hits (kws : list string) (text : string) : nat :=
  length (List.filter (fun k => bool_decide (k ∈ PyStr.split_ws (PyStr.lower text))) kws).

Definition positive_list : list string :=
  [ "great"; "good"; "excellent"; "amazing"; "love"; "enjoy"; "passionate" ].

Definition negative_list : list string :=
  [ "bad"; "difficult"; "hard"; "problem"; "issue"; "challenging" ].

Definition is_lt (c : ascii) : bool := Ascii.eqb c "<".

Definition first_char (s : string) : option ascii :=
  match s with
  | EmptyString => None
  | String c _ => Some c
  end.

Fixpoint last_char (s : string) : option ascii :=
  match s with
  | EmptyString => None
  | String c EmptyString => Some c
  | String _ r => last_char r
  end.

(** Some ["<"] of [s] has a [">"] somewhere after it. *)
Fixpoint has_tag (s : string) : bool :=
  match s with
  | EmptyString => false
  | String c r => is_lt c && PyStr.any Utils.is_gt r || has_tag r
  end.


Definition script_example : string :=
  "<script>alert(1)</script>hello; world/test".

(** ** Conversations *)

(** A sequence of calls on one chatbot object with one candidate
    dictionary, each call with its own transcript; the replies are collected
    in order. *)
Fixpoint converse (self : chatbot) (candidate_info : gmap string pyval)
    (turns : list (list Message)) : chatbot * gmap string pyval * list outcome :=
  match turns with
  | [] => (self, candidate_info, [])
  | messages :: rest =>
      let '(self, candidate_info, reply) := get_response self messages candidate_info in
      let '(self, candidate_info, replies) := converse self candidate_info rest in
      (self, candidate_info, reply :: replies)
  end.

(** The chatbot objects that calls of [get_response] can produce from a new
    one, when every dictionary passed in has an [experience] entry. *)
Inductive reachable : chatbot -> Prop :=
| reachable_init : reachable init
| reachable_step self messages candidate_info :
    reachable self ->
    is_Some (candidate_info !! "experience") ->
    reachable (fst (fst (get_response self messages candidate_info))).

(** What holds of the attributes of every such object. *)
Definition well_formed (self : chatbot) : Prop :=
  (0 <= current_question_index self)%Z
  /\ In (current_step self) step_sequence
  /\ (truthy (tech_questions_cache self) = true <-> current_step self = "tech_questions")
  /\ (tech_questions_cache self = EmptyDict
      \/ exists techs experience,
           tech_questions_cache self = Questions (generate_tech_questions techs experience))
  /\ (tech_questions_cache self = EmptyDict -> current_question_index self = 0%Z).

(** Position of a step in the fixed sequence. *)
Definition step_index (step : string) : option nat := index_of step step_sequence.

(** ** [app.py]: handling one prompt *)

Module App.

(** What [st.session_state] holds. *)
Record session : Type := mkSession {
  messages : list Message;
  bot : chatbot;
  candidate_info : gmap string pyval
}.

(** [initialize_session_state], once the chatbot object is constructed. *)
Definition initialize_session_state : session :=
  mkSession [] init initial_candidate_info.

Inductive result : Type :=
| Idle                      (* no prompt was submitted *)
| Replied (reply : string)  (* the assistant message was appended and shown *)
| Reported (e : exn)        (* [get_response] raised; shown by [st.error] *)
| Crashed (e : exn).        (* raised outside the [try] block *)

(** The body of [if prompt := st.chat_input(...)] in [main].  The sentiment
    is appended to [candidate_info["sentiment_history"]] before the [try]
    block; a missing key crashes the run, and so does a value without
    [append] (given as [TypeError] here). *)
Definition on_prompt (prompt : string) (st : session) : session * result :=
  if (prompt =? "")%string then (st, Idle)
  else
    let clean_input := Utils.sanitize_input prompt in
    let sentiment := Utils.analyze_sentiment clean_input in
    match candidate_info st !! "sentiment_history" with
    | None => (st, Crashed (KeyError "sentiment_history"))
    | Some (VList history) =>
        let info :=
          <["sentiment_history" := VList (history ++ [sentiment])]> (candidate_info st) in
        let message := mkMessage "user" clean_input (Some sentiment) in
        let msgs := (messages st ++ [message])%list in
        match get_response (bot st) msgs info with
        | (bot', info', Ok response) =>
            (mkSession (msgs ++ [mkMessage "assistant" response None]) bot' info',
             Replied response)
        | (bot', info', Raise e) => (mkSession msgs bot' info', Reported e)
        end
    | Some _ => (st, Crashed TypeError)
    end.

(** Prompts handled one after the other in one session. *)
Fixpoint on_prompts (prompts : list string) (st : session) : session * list result :=
  match prompts with
  | [] => (st, [])
  | prompt :: rest =>
      let '(st, r) := on_prompt prompt st in
      let '(st, rs) := on_prompts rest st in
      (st, r :: rs)
  end.

(** The prompts that are submitted at all. *)
Definition submitted (prompts : list string) : list string :=
  List.filter (fun prompt => negb (prompt =? "")%string) prompts.

(** What holds of a session after any number of prompts: the chatbot
    object is reachable, the sentiment history is the list [history], and
    every other key except [tech_questions_asked] is as at the start. *)
Definition session_ok (st : session) (history : list string) : Prop :=
  reachable (bot st)
  /\ candidate_info st !! "sentiment_history" = Some (VList history)
  /\ (forall k, k <> "sentiment_history" -> k <> "tech_questions_asked" ->
        candidate_info st !! k = initial_candidate_info !! k).

End App.

(** * Properties *)

(** ** The embedding on small inputs *)

Example lower_ex : PyStr.lower "I QUIT This" = "i quit this".
Proof. reflexivity. Qed.

Example strip_ex : PyStr.strip "  a b  " = "a b".
Proof. reflexivity. Qed.

Example split_ex : PyStr.split "," "a,,b," = ["a"; ""; "b"; ""].
Proof. reflexivity. Qed.

Example split_empty_ex : PyStr.split "," "" = [""].
Proof. reflexivity. Qed.

Example split_ws_ex : PyStr.split_ws "  ab  c d " = ["ab"; "c"; "d"].
Proof. reflexivity. Qed.

Example of_int_ex : PyStr.of_int 12 = "12" /\ PyStr.of_int (-3) = "-3" /\ PyStr.of_int 0 = "0".
Proof. repeat split; reflexivity. Qed.

Example contains_ex : PyStr.contains "quit" "i quit this" = true /\ PyStr.contains "" "" = true.
Proof. split; reflexivity. Qed.

Example sanitize_ex1 : Utils.sanitize_input "  <b>bold</b> a;b\c/d <" = "bold abcd <".
Proof. reflexivity. Qed.

Example sanitize_ex2 : Utils.sanitize_input "<<a>b> x <c" = "b> x <c".
Proof. reflexivity. Qed.

Example sentiment_ex1 : Utils.analyze_sentiment "Great great GREAT but bad" = "neutral".
Proof. vm_compute. reflexivity. Qed.

(** ** Strings *)

Section StringFacts.

Lemma app_nil (s : string) : "" +:+ s = s.
Proof. reflexivity. Qed.

Lemma app_cons (c : ascii) (a b : string) :
  String c a +:+ b = String c (a +:+ b).
Proof. reflexivity. Qed.



Lemma prefix_iff (n h : string) :
  String.prefix n h = true <-> exists post, h = n +:+ post.
Proof.
  revert h; induction n as [|c n IH]; intros h.
  - split; [intros _; now exists h | intros _; now destruct h].
  - destruct h as [|d h]; simpl.
    + split; [discriminate | intros [post H]; discriminate].
    + destruct (ascii_dec c d) as [->|Hne].
      * rewrite IH. split; intros [post H]; exists post.
        -- now rewrite H.
        -- rewrite app_cons in H. now injection H.
      * split; [discriminate | intros [post H]].
        rewrite app_cons in H. congruence.
Qed.

Lemma contains_cons (n h : string) (d : ascii) :
  PyStr.contains n (String d h)
  = String.prefix n (String d h) || PyStr.contains n h.
Proof. reflexivity. Qed.

Lemma contains_iff (n h : string) :
  PyStr.contains n h = true <-> exists pre post, h = pre +:+ n +:+ post.
Proof.
  induction h as [|d h IH].
  - simpl. rewrite orb_false_r. split.
    + destruct n; [intros _; now exists "", "" | discriminate].
    + intros (pre & post & H). destruct pre; [|discriminate].
      rewrite app_nil in H. now destruct n.
  - rewrite contains_cons, orb_true_iff, IH, prefix_iff. split.
    + intros [[post H] | (pre & post & H)].
      * now exists "", post.
      * exists (String d pre), post. now rewrite app_cons, H.
    + intros (pre & post & H). destruct pre as [|c pre].
      * left. now exists post.
      * right. exists pre, post. rewrite app_cons in H. now injection H.
Qed.

Lemma filter_length (p : ascii -> bool) (s : string) :
  String.length (PyStr.filter p s)
  = length (List.filter p (list_ascii_of_string s)).
Proof.
  induction s as [|c s IH]; simpl; [reflexivity|].
  destruct (p c); simpl; now rewrite IH.
Qed.

Lemma digits_length (s : string) :
  String.length (PyStr.filter PyStr.isdigit s) = digit_count s.
Proof.
  induction s as [|c s IH]; simpl; [reflexivity|].
  destruct (PyStr.isdigit c); simpl; now rewrite IH.
Qed.

(** Whitespace-only texts. *)

Lemma isspace_lower_char (c : ascii) :
  PyStr.isspace c = true -> PyStr.lower_char c = c.
Proof.
  destruct c as [[] [] [] [] [] [] [] []]; vm_compute; intros H;
    first [reflexivity | discriminate H].
Qed.

Lemma isspace_not_isdigit (c : ascii) :
  PyStr.isspace c = true -> PyStr.isdigit c = false.
Proof.
  destruct c as [[] [] [] [] [] [] [] []]; vm_compute; intros H;
    first [reflexivity | discriminate H].
Qed.

Lemma blank_lower (s : string) :
  PyStr.all PyStr.isspace s = true -> PyStr.lower s = s.
Proof.
  induction s as [|c s IH]; simpl; [reflexivity|].
  intros [Hc Hs]%andb_true_iff. now rewrite isspace_lower_char, IH.
Qed.

Lemma blank_no_digit (s : string) :
  PyStr.all PyStr.isspace s = true -> PyStr.any PyStr.isdigit s = false.
Proof.
  induction s as [|c s IH]; simpl; [reflexivity|].
  intros [Hc Hs]%andb_true_iff. now rewrite isspace_not_isdigit, IH.
Qed.

Lemma blank_digit_count (s : string) :
  PyStr.all PyStr.isspace s = true -> digit_count s = 0%nat.
Proof.
  induction s as [|c s IH]; simpl; [reflexivity|].
  intros [Hc Hs]%andb_true_iff. now rewrite isspace_not_isdigit, IH.
Qed.

Lemma blank_contains (k : ascii) (kw s : string) :
  PyStr.isspace k = false ->
  PyStr.all PyStr.isspace s = true ->
  PyStr.contains (String k kw) s = false.
Proof.
  intros Hk. induction s as [|c s IH]; [reflexivity|].
  simpl PyStr.all. intros [Hc Hs]%andb_true_iff.
  rewrite contains_cons, (IH Hs), orb_false_r. simpl.
  destruct (ascii_dec k c) as [->|]; [congruence | reflexivity].
Qed.

Lemma blank_rstrip (s : string) :
  PyStr.all PyStr.isspace s = true -> PyStr.rstrip s = "".
Proof.
  induction s as [|c s IH]; simpl; [reflexivity|].
  intros [Hc Hs]%andb_true_iff. now rewrite (IH Hs), Hc.
Qed.

Lemma blank_strip (s : string) :
  PyStr.all PyStr.isspace s = true -> PyStr.strip s = "".
Proof. intros H. unfold PyStr.strip. now rewrite blank_rstrip. Qed.

End StringFacts.

(** ** The question bank *)

Section QuestionBank.

Lemma extend_loop (f : string -> list string) (l : list string) (acc : list string) :
  fold_left (fun qs tech => (qs ++ f tech)%list) l acc = (acc ++ flat_map f l)%list.
Proof.
  revert acc; induction l as [|t l IH]; intros acc; simpl.
  - now rewrite app_nil_r.
  - rewrite IH. now rewrite <- app_assoc.
Qed.

Lemma generate_tech_questions_eq (tech_stack : list string) (experience : pyval) :
  generate_tech_questions tech_stack experience
  = take 5 (flat_map tech_templates (take 3 tech_stack) ++ general_questions)%list.
Proof. unfold generate_tech_questions. now rewrite extend_loop. Qed.

Lemma flat_map_templates_length (l : list string) :
  length (flat_map tech_templates l) = (3 * length l)%nat.
Proof. induction l as [|t l IH]; simpl; lia. Qed.

Lemma generate_tech_questions_length (tech_stack : list string) (experience : pyval) :
  length (generate_tech_questions tech_stack experience)
  = Nat.min 5 (3 * Nat.min 3 (length tech_stack) + 2).
Proof.
  rewrite generate_tech_questions_eq, length_take, length_app.
  rewrite flat_map_templates_length, length_take. reflexivity.
Qed.

Lemma generate_tech_questions_bounds (tech_stack : list string) (experience : pyval) :
  (2 <= length (generate_tech_questions tech_stack experience) <= 5)%nat.
Proof. rewrite generate_tech_questions_length. lia. Qed.

Lemma generate_tech_questions_truthy (tech_stack : list string) (experience : pyval) :
  truthy (Questions (generate_tech_questions tech_stack experience)) = true.
Proof.
  pose proof (generate_tech_questions_bounds tech_stack experience) as H.
  destruct (generate_tech_questions tech_stack experience);
    [simpl in H; lia | reflexivity].
Qed.

Lemma generate_tech_questions_head (tech_stack : list string) (experience : pyval) :
  exists q, cache_get (Questions (generate_tech_questions tech_stack experience)) 0 = inr q
            /\ generate_tech_questions tech_stack experience !! 0%nat = Some q.
Proof.
  pose proof (generate_tech_questions_bounds tech_stack experience) as H.
  destruct (generate_tech_questions tech_stack experience) as [|q qs];
    [simpl in H; lia|].
  exists q. split; reflexivity.
Qed.

End QuestionBank.

(** C2.  The tech-stack answer ["Python, React, Node.js, Go"] is stored as
    the four technologies in order, and for them the generator returns
    exactly five questions: the three Python questions followed by the
    first two React questions.  In general the result is the first five
    entries of the three template questions of each of the first three
    technologies, in order, followed by the two general questions; the
    experience argument does not influence it. *)
Theorem C2_truncation_point :
  (forall info,
     update_candidate_info "tech_stack" "Python, React, Node.js, Go" info !! "tech_stack"
     = Some (VList ["Python"; "React"; "Node.js"; "Go"]))
  /\ (forall experience,
        generate_tech_questions ["Python"; "React"; "Node.js"; "Go"] experience
        = [ "What are the main features and benefits of Python?";
            "Can you describe a challenging problem you solved using Python?";
            "What are some best practices when working with Python?";
            "What are the main features and benefits of React?";
            "Can you describe a challenging problem you solved using React?" ])
  /\ (forall experience,
        length (generate_tech_questions ["Python"; "React"; "Node.js"; "Go"] experience) = 5%nat
        /\ generate_tech_questions ["Python"; "React"; "Node.js"; "Go"] experience
           = take 5 (tech_templates "Python" ++ tech_templates "React"
                     ++ tech_templates "Node.js" ++ general_questions)%list
        /\ generate_tech_questions ["Python"; "React"; "Node.js"; "Go"] experience
           = (tech_templates "Python" ++ take 2 (tech_templates "React"))%list)
  /\ (forall tech_stack experience,
        generate_tech_questions tech_stack experience
        = take 5 (flat_map tech_templates (take 3 tech_stack) ++ general_questions)%list)
  /\ (forall tech_stack experience experience',
        generate_tech_questions tech_stack experience
        = generate_tech_questions tech_stack experience').
Proof.
  split; [|split; [|split; [|split]]].
  - intros info. unfold update_candidate_info. simpl.
    now rewrite lookup_insert_eq.
  - reflexivity.
  - intros experience. repeat split; reflexivity.
  - apply generate_tech_questions_eq.
  - reflexivity.
Qed.

(** ** The validators *)

(** C6.  On the chatbot path a phone answer is valid exactly when it has at
    least ten digit characters; the utility check accepts exactly the
    texts with ten to fifteen digit characters; so a text with sixteen or
    more digits is accepted by the former and rejected by the latter. *)
Theorem C6_phone_validators_diverge (x : string) :
  (validate_response "phone" x = true <-> (10 <= digit_count x)%nat)
  /\ (Utils.validate_phone x = true <-> (10 <= digit_count x <= 15)%nat)
  /\ ((16 <= digit_count x)%nat ->
      validate_response "phone" x = true /\ Utils.validate_phone x = false).
Proof.
  assert (Hv : validate_response "phone" x = (10 <=? digit_count x)%nat).
  { unfold validate_response. destruct x as [|c x]; [reflexivity|].
    change (String c x =? "")%string with false. cbv iota.
    change ("phone" =? "email")%string with false.
    change ("phone" =? "phone")%string with true. cbv iota zeta.
    now rewrite digits_length. }
  assert (Hu : Utils.validate_phone x
               = (10 <=? digit_count x)%nat && (digit_count x <=? 15)%nat).
  { unfold Utils.validate_phone. cbv zeta. now rewrite digits_length. }
  rewrite Hv, Hu. split; [|split].
  - apply Nat.leb_le.
  - rewrite andb_true_iff, !Nat.leb_le. reflexivity.
  - intros H. split.
    + apply Nat.leb_le. lia.
    + apply andb_false_iff. right. apply Nat.leb_gt. lia.
Qed.

Example phone_examples :
  validate_response "phone" "555-123-4567" = true
  /\ validate_response "phone" "12345" = false
  /\ validate_response "phone" "1234567890123456" = true
  /\ Utils.validate_phone "1234567890123456" = false.
Proof. repeat split; reflexivity. Qed.

(** ** The input sanitizer *)

Section Sanitizer.

Lemma any_app (p : ascii -> bool) (a b : string) :
  PyStr.any p (a +:+ b) = PyStr.any p a || PyStr.any p b.
Proof.
  induction a as [|c a IH]; [reflexivity|].
  rewrite app_cons. simpl. now rewrite IH, orb_assoc.
Qed.

Lemma any_filter (p q : ascii -> bool) (s : string) :
  PyStr.any p (PyStr.filter q s) = true -> PyStr.any p s = true.
Proof.
  induction s as [|c s IH]; simpl; [discriminate|].
  destruct (q c); simpl; rewrite !orb_true_iff; tauto.
Qed.

Lemma any_lstrip (p : ascii -> bool) (s : string) :
  PyStr.any p (PyStr.lstrip s) = true -> PyStr.any p s = true.
Proof.
  induction s as [|c s IH]; simpl; [discriminate|].
  destruct (PyStr.isspace c); simpl; rewrite ?orb_true_iff; tauto.
Qed.

Lemma any_rstrip (p : ascii -> bool) (s : string) :
  PyStr.any p (PyStr.rstrip s) = true -> PyStr.any p s = true.
Proof.
  induction s as [|c s IH]; simpl; [discriminate|].
  destruct (PyStr.rstrip s) as [|d r].
  - destruct (PyStr.isspace c); simpl; [discriminate|].
    rewrite orb_false_r. intros ->. reflexivity.
  - change (PyStr.any p (String c (String d r)))
      with (p c || PyStr.any p (String d r)).
    rewrite !orb_true_iff. tauto.
Qed.

Lemma any_strip (p : ascii -> bool) (s : string) :
  PyStr.any p (PyStr.strip s) = true -> PyStr.any p s = true.
Proof. intros H. now apply any_rstrip, any_lstrip. Qed.

Lemma any_sub_tags (p : ascii -> bool) (b : bool) (s : string) :
  PyStr.any p (Utils.sub_tags b s) = true -> PyStr.any p s = true.
Proof.
  revert b; induction s as [|c s IH]; intros b; simpl; [now destruct b|].
  destruct b.
  - intros H. apply IH in H. now rewrite H, orb_true_r.
  - destruct (Ascii.eqb c "<" && PyStr.any Utils.is_gt s).
    + intros H. apply IH in H. now rewrite H, orb_true_r.
    + simpl. rewrite !orb_true_iff. intros [H|H]; [now left|].
      right. now apply IH in H.
Qed.

Lemma any_false_of (p : ascii -> bool) (s t : string) :
  (PyStr.any p t = true -> PyStr.any p s = true) ->
  PyStr.any p s = false -> PyStr.any p t = false.
Proof. destruct (PyStr.any p t); [intros H Hs; now rewrite H in Hs | reflexivity]. Qed.

(** The three equations that determine the first substitution. *)

Lemma sub_tags_no_lt (s : string) :
  PyStr.any is_lt s = false -> Utils.sub_tags false s = s.
Proof.
  induction s as [|c s IH]; simpl; [reflexivity|].
  intros [Hc Hs]%orb_false_iff. unfold is_lt in Hc. rewrite Hc. simpl.
  now rewrite IH.
Qed.

Lemma sub_tags_no_gt (s : string) :
  PyStr.any Utils.is_gt s = false -> Utils.sub_tags false s = s.
Proof.
  induction s as [|c s IH]; simpl; [reflexivity|].
  intros [Hc Hs]%orb_false_iff. rewrite Hs, andb_false_r. now rewrite IH.
Qed.

Lemma sub_tags_inside (body rest : string) :
  PyStr.any Utils.is_gt body = false ->
  Utils.sub_tags true (body +:+ ">" +:+ rest) = Utils.sub_tags false rest.
Proof.
  induction body as [|c body IH]; [reflexivity|].
  simpl PyStr.any. intros [Hc Hs]%orb_false_iff.
  rewrite app_cons. simpl. rewrite Hc. simpl. now apply IH.
Qed.

Lemma sub_tags_match (pre body rest : string) :
  PyStr.any is_lt pre = false ->
  PyStr.any Utils.is_gt body = false ->
  Utils.sub_tags false (pre +:+ "<" +:+ body +:+ ">" +:+ rest)
  = pre +:+ Utils.sub_tags false rest.
Proof.
  intros Hpre Hbody. induction pre as [|c pre IH].
  - rewrite !app_nil, app_cons, app_nil. simpl.
    rewrite any_app. simpl. rewrite orb_true_r. simpl.
    now apply sub_tags_inside.
  - simpl in Hpre. apply orb_false_iff in Hpre as [Hc Hp].
    rewrite (app_cons c pre), (app_cons c pre). simpl.
    unfold is_lt in Hc. rewrite Hc. simpl.
    now rewrite (IH Hp).
Qed.

(** After the first substitution no tag is left, and the later passes
    cannot bring one back. *)

Lemma has_tag_sub_tags (b : bool) (s : string) :
  has_tag (Utils.sub_tags b s) = false.
Proof.
  revert b; induction s as [|c s IH]; intros b; simpl; [now destruct b|].
  destruct b; [apply IH|].
  destruct (Ascii.eqb c "<" && PyStr.any Utils.is_gt s) eqn:E; [apply IH|].
  simpl. rewrite IH, orb_false_r. unfold is_lt.
  apply andb_false_iff in E as [E|E]; [now rewrite E|].
  apply andb_false_iff. right.
  apply (any_false_of _ s); [apply any_sub_tags | exact E].
Qed.

Lemma has_tag_filter (q : ascii -> bool) (s : string) :
  has_tag (PyStr.filter q s) = true -> has_tag s = true.
Proof.
  induction s as [|c s IH]; simpl; [discriminate|].
  destruct (q c); simpl; rewrite !orb_true_iff, ?andb_true_iff.
  - intros [[Hc Hg]|H]; [left | right; now apply IH].
    split; [exact Hc | now apply any_filter in Hg].
  - intros H. right. now apply IH.
Qed.

Lemma has_tag_lstrip (s : string) :
  has_tag (PyStr.lstrip s) = true -> has_tag s = true.
Proof.
  induction s as [|c s IH]; simpl; [discriminate|].
  destruct (PyStr.isspace c); simpl; [|tauto].
  intros H. rewrite (IH H). apply orb_true_r.
Qed.

Lemma has_tag_rstrip (s : string) :
  has_tag (PyStr.rstrip s) = true -> has_tag s = true.
Proof.
  induction s as [|c s IH]; simpl; [discriminate|].
  pose proof (any_rstrip Utils.is_gt s) as Hany.
  destruct (PyStr.rstrip s) as [|d r].
  - destruct (PyStr.isspace c); simpl; [discriminate|].
    now rewrite andb_false_r.
  - change (has_tag (String c (String d r)))
      with (is_lt c && PyStr.any Utils.is_gt (String d r) || has_tag (String d r)).
    rewrite !orb_true_iff, !andb_true_iff.
    intros [[Hc Hg]|H]; [left; split; [exact Hc | now apply Hany] | right; now apply IH].
Qed.

Lemma has_tag_sanitize_input (text : string) :
  has_tag (Utils.sanitize_input text) = false.
Proof.
  unfold Utils.sanitize_input, Utils.sub_special, PyStr.strip.
  destruct (has_tag _) eqn:E; [|reflexivity].
  apply has_tag_lstrip, has_tag_rstrip, has_tag_filter in E.
  now rewrite has_tag_sub_tags in E.
Qed.

Lemma any_intro (p : ascii -> bool) (a b : string) (c : ascii) :
  p c = true -> PyStr.any p (a +:+ String c b) = true.
Proof. intros H. rewrite any_app. simpl. rewrite H. apply orb_true_r. Qed.

Lemma has_tag_intro (a b c : string) :
  has_tag (a +:+ "<" +:+ b +:+ ">" +:+ c) = true.
Proof.
  induction a as [|x a IH].
  - rewrite app_nil. change ("<" +:+ b +:+ ">" +:+ c) with (String "<" (b +:+ String ">" c)).
    simpl. now rewrite any_intro.
  - rewrite app_cons. simpl. rewrite IH. apply orb_true_r.
Qed.

(** The trimmed result starts and ends with a character that is not
    white space. *)

Lemma lstrip_first (s : string) (c : ascii) :
  first_char (PyStr.lstrip s) = Some c -> PyStr.isspace c = false.
Proof.
  induction s as [|d s IH]; simpl; [discriminate|].
  destruct (PyStr.isspace d) eqn:E; [exact IH|].
  simpl. intros [= <-]. exact E.
Qed.

Lemma last_char_cons (d : ascii) (s : string) (c : ascii) :
  last_char s = Some c -> last_char (String d s) = Some c.
Proof. destruct s; [discriminate | trivial]. Qed.

Lemma lstrip_last (s : string) (c : ascii) :
  last_char (PyStr.lstrip s) = Some c -> last_char s = Some c.
Proof.
  induction s as [|d s IH]; [discriminate|].
  simpl PyStr.lstrip. destruct (PyStr.isspace d); [|trivial].
  intros H. now apply last_char_cons, IH.
Qed.

Lemma rstrip_last (s : string) (c : ascii) :
  last_char (PyStr.rstrip s) = Some c -> PyStr.isspace c = false.
Proof.
  induction s as [|d s IH]; simpl; [discriminate|].
  destruct (PyStr.rstrip s) as [|e r].
  - destruct (PyStr.isspace d) eqn:E; simpl; [discriminate|].
    intros [= <-]. exact E.
  - exact IH.
Qed.

Lemma strip_trimmed (s : string) (c : ascii) :
  (first_char (PyStr.strip s) = Some c -> PyStr.isspace c = false)
  /\ (last_char (PyStr.strip s) = Some c -> PyStr.isspace c = false).
Proof.
  unfold PyStr.strip. split.
  - apply lstrip_first.
  - intros H. now apply lstrip_last, rstrip_last in H.
Qed.

Lemma any_filter_negb (p : ascii -> bool) (s : string) :
  PyStr.any p (PyStr.filter (fun c => negb (p c)) s) = false.
Proof.
  induction s as [|c s IH]; simpl; [reflexivity|].
  destruct (p c) eqn:E; simpl; [exact IH | now rewrite E, IH].
Qed.

Lemma filter_id (p : ascii -> bool) (s : string) :
  PyStr.any p s = false -> PyStr.filter (fun c => negb (p c)) s = s.
Proof.
  induction s as [|c s IH]; simpl; [reflexivity|].
  intros [Hc Hs]%orb_false_iff. rewrite Hc. simpl. now rewrite IH.
Qed.

Lemma sanitize_input_blank (raw : string) :
  PyStr.all PyStr.isspace raw = true -> Utils.sanitize_input raw = "".
Proof.
  intros H. unfold Utils.sanitize_input, Utils.sub_special.
  assert (Hlt : PyStr.any is_lt raw = false).
  { clear -H. induction raw as [|c s IH]; simpl in *; [reflexivity|].
    apply andb_true_iff in H as [Hc Hs]. rewrite (IH Hs), orb_false_r.
    destruct c as [[] [] [] [] [] [] [] []]; vm_compute in Hc |- *;
      first [reflexivity | discriminate Hc]. }
  assert (Hsp : PyStr.any Utils.is_special raw = false).
  { clear -H. induction raw as [|c s IH]; simpl in *; [reflexivity|].
    apply andb_true_iff in H as [Hc Hs]. rewrite (IH Hs), orb_false_r.
    destruct c as [[] [] [] [] [] [] [] []]; vm_compute in Hc |- *;
      first [reflexivity | discriminate Hc]. }
  rewrite (sub_tags_no_lt _ Hlt), (filter_id _ _ Hsp).
  now apply blank_strip.
Qed.

Lemma sub_tags_tag_free (s : string) :
  has_tag s = false -> Utils.sub_tags false s = s.
Proof.
  induction s as [|c s IH]; simpl; [reflexivity|].
  intros [Hc Hs]%orb_false_iff. unfold is_lt in Hc. rewrite Hc.
  now rewrite (IH Hs).
Qed.

Lemma sub_tags_prefix (pre rest : string) :
  PyStr.any is_lt pre = false ->
  Utils.sub_tags false (pre +:+ rest) = pre +:+ Utils.sub_tags false rest.
Proof.
  induction pre as [|c pre IH]; [reflexivity|]. simpl.
  intros [Hc Hp]%orb_false_iff. rewrite !app_cons. simpl.
  unfold is_lt in Hc. rewrite Hc. simpl. now rewrite (IH Hp).
Qed.

End Sanitizer.

(** C7, as the code has it.  For every text [sanitize_input] returns a
    string in which no semicolon, backslash or slash is left, no ["<"] is
    followed by a [">"], and the first and the last character are not white
    space.  A leftmost tag (no ["<"] before it, no [">"] inside it) is removed
    whole, and a text that has no tag, none of the three characters and
    nothing to trim is returned as it is.  The script example gives
    ["alert(1)hello worldtest"]: the slash is deleted and nothing is put in
    its place. *)
Theorem C7_sanitize_input_removal_set (text : string) :
  PyStr.any Utils.is_special (Utils.sanitize_input text) = false
  /\ (forall a b c, Utils.sanitize_input text <> a +:+ "<" +:+ b +:+ ">" +:+ c)
  /\ (forall c, first_char (Utils.sanitize_input text) = Some c
                \/ last_char (Utils.sanitize_input text) = Some c ->
                PyStr.isspace c = false)
  /\ (forall pre body rest,
        PyStr.any is_lt pre = false ->
        PyStr.any Utils.is_gt body = false ->
        Utils.sanitize_input (pre +:+ "<" +:+ body +:+ ">" +:+ rest)
        = Utils.sanitize_input (pre +:+ rest))
  /\ (has_tag text = false ->
      PyStr.any Utils.is_special text = false ->
      PyStr.strip text = text ->
      Utils.sanitize_input text = text)
  /\ Utils.sanitize_input script_example = "alert(1)hello worldtest".
Proof.
  split; [|split; [|split; [|split; [|split]]]].
  - unfold Utils.sanitize_input, Utils.sub_special.
    eapply any_false_of; [apply any_strip | apply any_filter_negb].
  - intros a b c H. pose proof (has_tag_sanitize_input text) as Hf.
    rewrite H, has_tag_intro in Hf. discriminate.
  - intros c [H|H]; unfold Utils.sanitize_input in H;
      now apply (strip_trimmed _ c) in H.
  - intros pre body rest Hpre Hbody. unfold Utils.sanitize_input.
    now rewrite sub_tags_match, sub_tags_prefix.
  - intros Htag Hsp Hstrip. unfold Utils.sanitize_input, Utils.sub_special.
    now rewrite sub_tags_tag_free, filter_id.
  - reflexivity.
Qed.

(** C7, the stated result: the script example does not come out with a
    backslash between [world] and [test], in either reading of the stated
    string; the result has no backslash at all. *)
Lemma C7_stated_result_not_produced :
  Utils.sanitize_input script_example <> "alert(1)hello world\\test"
  /\ Utils.sanitize_input script_example <> "alert(1)hello world\test"
  /\ PyStr.contains "world\test" (Utils.sanitize_input script_example) = false
  /\ PyStr.has_char "\" (Utils.sanitize_input script_example) = false.
Proof. repeat split; vm_compute; congruence. Qed.

(** ** The turn function *)

Section Turn.


Lemma blank_should_end_conversation (s : string) :
  PyStr.all PyStr.isspace s = true -> should_end_conversation s = false.
Proof.
  intros H. unfold should_end_conversation, exit_keywords.
  rewrite (blank_lower _ H). cbn [existsb].
  rewrite !(fun k kw Hk => blank_contains k kw s Hk H) by reflexivity.
  reflexivity.
Qed.

Lemma blank_validate_response (step s : string) :
  PyStr.all PyStr.isspace s = true ->
  In step ["email"; "phone"; "experience"] ->
  validate_response step s = false.
Proof.
  intros H Hstep. unfold validate_response.
  destruct (s =? "")%string; [reflexivity|].
  destruct Hstep as [<-|[<-|[<-|[]]]]; cbn [String.eqb Ascii.eqb Bool.eqb].
  - unfold PyStr.has_char. now rewrite blank_contains.
  - cbv zeta. now rewrite digits_length, blank_digit_count.
  - now apply blank_no_digit.
Qed.

(** The handler leaves the dictionary it is given alone, except that it
    sets [tech_questions_asked] when the questions are used up. *)
Lemma handle_tech_questions_frame (self : chatbot)
    (candidate_info : gmap string pyval) (user_response : string) :
  snd (fst (handle_tech_questions self candidate_info user_response)) = candidate_info
  \/ (snd (fst (handle_tech_questions self candidate_info user_response))
      = <["tech_questions_asked" := VBool true]> candidate_info
      /\ truthy (tech_questions_cache self) = true
      /\ (cache_len (tech_questions_cache self) <= current_question_index self + 1)%Z).
Proof.
  unfold handle_tech_questions.
  destruct (truthy (tech_questions_cache self)) eqn:Ht; cbn [negb].
  - cbn [with_index tech_questions_cache current_question_index].
    destruct (cache_len (tech_questions_cache self) <=? current_question_index self + 1)%Z
      eqn:E.
    + right. split; [reflexivity|]. split; [reflexivity|]. now apply Z.leb_le.
    + left. now destruct (cache_get _ _).
  - left. destruct (candidate_info !! "tech_stack") as [ts|]; [|reflexivity].
    destruct (candidate_info !! "experience") as [e|]; [|reflexivity].
    destruct (as_seq ts) as [techs|]; [|reflexivity].
    cbn [with_index with_cache tech_questions_cache].
    now destruct (cache_get _ _).
Qed.

End Turn.

(** C1, on the code.  After the greeting, at step [name], the answer
    ["John Smith"] advances the step to [email] and is acknowledged, but the
    caller's dictionary still has the empty name: the updated copy made by
    [update_candidate_info], which does hold ["John Smith"], is dropped. *)
Theorem C1_name_not_written_to_caller_record :
  get_response (with_started true init) [user_says "John Smith"] initial_candidate_info
  = (with_step "email" (with_started true init), initial_candidate_info,
     Ok "Thank you. What's your email address?")
  /\ snd (fst (get_response (with_started true init) [user_says "John Smith"]
                            initial_candidate_info)) !! "name" = Some (VStr "")
  /\ update_candidate_info "name" "John Smith" initial_candidate_info !! "name"
     = Some (VStr "John Smith").
Proof. repeat split; vm_compute; reflexivity. Qed.



(** C9.  Whatever the chatbot object, the transcript and the dictionary,
    a call of [get_response] leaves every key of the caller's dictionary other
    than [tech_questions_asked] with the value it had; the dictionary is
    either unchanged or has [tech_questions_asked] set to true, and the
    latter only at step [tech_questions] when the questions are used up. *)
Theorem C9_only_tech_questions_asked_written (self : chatbot)
    (messages : list Message) (candidate_info : gmap string pyval) :
  (forall key, key <> "tech_questions_asked" ->
     snd (fst (get_response self messages candidate_info)) !! key
     = candidate_info !! key)
  /\ (snd (fst (get_response self messages candidate_info)) = candidate_info
      \/ (snd (fst (get_response self messages candidate_info))
          = <["tech_questions_asked" := VBool true]> candidate_info
          /\ current_step self = "tech_questions"
          /\ (cache_len (tech_questions_cache self)
              <= current_question_index self + 1)%Z)).
Proof.
  assert (H : snd (fst (get_response self messages candidate_info)) = candidate_info
              \/ (snd (fst (get_response self messages candidate_info))
                  = <["tech_questions_asked" := VBool true]> candidate_info
                  /\ current_step self = "tech_questions"
                  /\ (cache_len (tech_questions_cache self)
                      <= current_question_index self + 1)%Z)).
  { unfold get_response. cbv zeta.
    destruct (conversation_started self); cbn [negb]; [|now left].
    destruct (should_end_conversation _); [now left|].
    destruct (current_step self =? "tech_questions")%string eqn:Estep.
    - apply String.eqb_eq in Estep.
      destruct (handle_tech_questions_frame self candidate_info (last_content messages))
        as [Hf|(Hf & _ & Hl)]; [now left | right; tauto].
    - destruct (validate_response _ _); cbn [negb]; [|now left].
      destruct (current_step (with_step _ self) =? "tech_questions")%string; [|now left].
      destruct (handle_tech_questions _ _ _) as [[self' copy'] reply]. now left. }
  split; [|exact H].
  intros key Hkey. destruct H as [->|(-> & _)]; [reflexivity|].
  now rewrite lookup_insert_ne.
Qed.

Example caller_record_written_at_the_end :
  snd (fst (get_response
              (mkChatbot true "tech_questions" (Questions general_questions) 1)
              [user_says "by reading"] initial_candidate_info))
  !! "tech_questions_asked" = Some (VBool true).
Proof. vm_compute. reflexivity. Qed.


(** C3, where the code departs from it: on the first call of a session a
    blank input is not answered with the step's prompt behind the rejection
    prefix but with the greeting.  The validator does reject the input, and
    the step and the dictionary stay as they are. *)
Lemma C3_first_call_gives_greeting :
  PyStr.all PyStr.isspace "   " = true
  /\ current_step init = "name"
  /\ validate_response "name" (Utils.sanitize_input "   ") = false
  /\ get_response init [user_says (Utils.sanitize_input "   ")] initial_candidate_info
     = (with_started true init, initial_candidate_info, Ok get_initial_greeting)
  /\ get_initial_greeting
     <> "I'm sorry, but I need a valid name. Could you please tell me your full name?"
  /\ snd (App.on_prompt "   " App.initialize_session_state)
     = App.Replied get_initial_greeting.
Proof. repeat split; vm_compute; congruence. Qed.

(** C3, as the code has it.  Once the greeting has been given, at every step
    other than [tech_questions], when the latest user input is empty or
    consists only of whitespace characters, the text that reaches the
    orchestrator for it (the input after [sanitize_input]) is not valid; the
    reply is the step's prompt behind the rejection prefix, and the chatbot
    object and the candidate dictionary are unchanged. *)
Theorem C3_blank_input_rejected (self : chatbot) (messages : list Message)
    (candidate_info : gmap string pyval) (raw : string) :
  conversation_started self = true ->
  current_step self <> "tech_questions" ->
  PyStr.all PyStr.isspace raw = true ->
  last_content messages = Utils.sanitize_input raw ->
  validate_response (current_step self) (last_content messages) = false
  /\ get_response self messages candidate_info
     = (self, candidate_info,
        Ok ("I'm sorry, but I need a valid " +:+ current_step self +:+ ". "
            +:+ get_next_question (current_step self))).
Proof.
  intros Hs Hstep Hraw Hin.
  assert (Hempty : last_content messages = "").
  { rewrite Hin. now apply sanitize_input_blank. }
  assert (Hv : validate_response (current_step self) (last_content messages) = false).
  { now rewrite Hempty. }
  split; [exact Hv|].
  unfold get_response. cbv zeta. rewrite Hs. cbn [negb].
  rewrite (blank_should_end_conversation (last_content messages))
    by now rewrite Hempty.
  destruct (current_step self =? "tech_questions")%string eqn:E.
  - apply String.eqb_eq in E. contradiction.
  - now rewrite Hv.
Qed.

Lemma C3_blank_input_rejected_witness :
  validate_response "name" (Utils.sanitize_input "   ") = false
  /\ get_response (with_started true init) [user_says (Utils.sanitize_input "   ")]
                  initial_candidate_info
     = (with_started true init, initial_candidate_info,
        Ok "I'm sorry, but I need a valid name. Could you please tell me your full name?").
Proof.
  apply (C3_blank_input_rejected (with_started true init)
           [user_says (Utils.sanitize_input "   ")] initial_candidate_info "   ").
  - reflexivity.
  - simpl. discriminate.
  - reflexivity.
  - reflexivity.
Defined.

Example blank_inputs :
  get_response (with_step "email" (with_started true init))
               [user_says (Utils.sanitize_input "   ")] initial_candidate_info
  = (with_step "email" (with_started true init), initial_candidate_info,
     Ok "I'm sorry, but I need a valid email. What's your email address?")
  /\ validate_response "phone" "  " = false
  /\ validate_response "location" " " = true.
Proof. repeat split; vm_compute; reflexivity. Qed.

(** ** The technical questions *)

Section TechQuestions.



(** First entry: the set is derived, stored, and question 1 is asked. *)
Lemma handle_tech_questions_first (self : chatbot)
    (candidate_info : gmap string pyval) (user_response : string)
    (tech_stack experience : pyval) (techs : list string) :
  truthy (tech_questions_cache self) = false ->
  candidate_info !! "tech_stack" = Some tech_stack ->
  as_seq tech_stack = Some techs ->
  candidate_info !! "experience" = Some experience ->
  exists q,
    generate_tech_questions techs experience !! 0%nat = Some q
    /\ handle_tech_questions self candidate_info user_response
       = (with_index 0 (with_cache (Questions (generate_tech_questions techs experience)) self),
          candidate_info, Ok (intro_message techs q)).
Proof.
  intros Ht Hts Hseq He.
  destruct (generate_tech_questions_head techs experience) as (q & Hq & Hq0).
  exists q. split; [exact Hq0|].
  unfold handle_tech_questions. rewrite Ht, Hts, He, Hseq. cbn [negb].
  cbn [with_index with_cache tech_questions_cache]. now rewrite Hq.
Qed.

(** Any later call: the cache is not touched, the index goes up by one. *)
Lemma handle_tech_questions_later (self : chatbot)
    (candidate_info : gmap string pyval) (user_response : string) :
  truthy (tech_questions_cache self) = true ->
  handle_tech_questions self candidate_info user_response
  = (with_index (current_question_index self + 1) self,
     (if (cache_len (tech_questions_cache self) <=? current_question_index self + 1)%Z
      then <["tech_questions_asked" := VBool true]> candidate_info
      else candidate_info),
     (if (cache_len (tech_questions_cache self) <=? current_question_index self + 1)%Z
      then Ok closing_message
      else match cache_get (tech_questions_cache self) (current_question_index self + 1) with
           | inr q => Ok (next_message (current_question_index self + 1) q)
           | inl e => Raise e
           end)).
Proof.
  intros Ht. unfold handle_tech_questions. rewrite Ht. cbn [negb].
  cbn [with_index tech_questions_cache current_question_index].
  destruct (_ <=? _)%Z; [reflexivity|]. now destruct (cache_get _ _).
Qed.


End TechQuestions.



(** C10.  For every tech-stack list, the empty one included, and every
    experience string the generator returns between two and five
    questions, so element 0 exists; a first entry into the technical phase
    with that stack and experience in the dictionary therefore replies with
    the introduction and question 1, and no first entry at all ends in an
    index error. *)
Theorem C10_first_question_in_bounds (tech_stack : list string) (experience : string) :
  (2 <= length (generate_tech_questions tech_stack (VStr experience)) <= 5)%nat
  /\ (exists q, cache_get (Questions (generate_tech_questions tech_stack (VStr experience))) 0
                = inr q)
  /\ (forall (self : chatbot) (candidate_info : gmap string pyval) (user_response : string),
        truthy (tech_questions_cache self) = false ->
        candidate_info !! "tech_stack" = Some (VList tech_stack) ->
        candidate_info !! "experience" = Some (VStr experience) ->
        exists q, snd (handle_tech_questions self candidate_info user_response)
                  = Ok (intro_message tech_stack q))
  /\ (forall (self : chatbot) (candidate_info : gmap string pyval) (user_response : string),
        truthy (tech_questions_cache self) = false ->
        snd (handle_tech_questions self candidate_info user_response) <> Raise IndexError).
Proof.
  split; [apply generate_tech_questions_bounds|]. split; [|split].
  - destruct (generate_tech_questions_head tech_stack (VStr experience)) as (q & Hq & _).
    now exists q.
  - intros self info u Ht Hts He.
    destruct (handle_tech_questions_first self info u _ _ tech_stack Ht Hts eq_refl He)
      as (q & _ & Hq).
    exists q. now rewrite Hq.
  - intros self info u Ht. unfold handle_tech_questions. rewrite Ht. cbn [negb].
    destruct (info !! "tech_stack") as [ts|]; [|discriminate].
    destruct (info !! "experience") as [e|]; [|discriminate].
    destruct (as_seq ts) as [techs|]; [|discriminate].
    destruct (generate_tech_questions_head techs e) as (q & Hq & _).
    cbn [with_index with_cache tech_questions_cache]. rewrite Hq. discriminate.
Qed.

Example empty_stack_questions :
  generate_tech_questions [] (VStr "") = general_questions.
Proof. reflexivity. Qed.

(** ** The sentiment tagger *)

Section Sentiment.

Lemma size_inter_list (toks kws : list string) :
  NoDup kws ->
  size ((list_to_set toks : gset string) ∩ list_to_set kws)
  = length (List.filter (fun k => bool_decide (k ∈ toks)) kws).
Proof.
  induction 1 as [|k kws Hk Hnd IH]; simpl.
  - rewrite intersection_empty_r_L. apply size_empty.
  - rewrite intersection_union_l_L.
    destruct (bool_decide_reflect (k ∈ toks)) as [Hin|Hin]; simpl.
    + rewrite <- IH.
      rewrite (comm_L (∩) (list_to_set toks) {[k]}).
      rewrite (subseteq_intersection_1_L {[k]} (list_to_set toks)).
      * rewrite size_union, size_singleton; [reflexivity|].
        apply disjoint_singleton_l. rewrite elem_of_intersection.
        intros [_ Hk']. now apply elem_of_list_to_set in Hk'.
      * apply singleton_subseteq_l. now apply elem_of_list_to_set.
    + rewrite <- IH. f_equal.
      rewrite (proj1 (disjoint_intersection_L (list_to_set toks) {[k]})).
      * apply (left_id_L ∅ (∪)).
      * apply disjoint_singleton_r. now rewrite elem_of_list_to_set.
Qed.

Lemma positive_list_NoDup : NoDup positive_list.
Proof. apply (bool_decide_unpack _). vm_compute. exact I. Qed.

Lemma negative_list_NoDup : NoDup negative_list.
Proof. apply (bool_decide_unpack _). vm_compute. exact I. Qed.

Lemma positive_words_list : Utils.positive_words = list_to_set positive_list.
Proof.
  unfold Utils.positive_words, positive_list. cbn [list_to_set].
  now rewrite (right_id_L ∅ (∪)), !(assoc_L (∪)).
Qed.

Lemma negative_words_list : Utils.negative_words = list_to_set negative_list.
Proof.
  unfold Utils.negative_words, negative_list. cbn [list_to_set].
  now rewrite (right_id_L ∅ (∪)), !(assoc_L (∪)).
Qed.

Lemma positive_hits_size (text : string) :
  keyword_hits positive_list text
  = size ((list_to_set (PyStr.split_ws (PyStr.lower text)) : gset string)
          ∩ Utils.positive_words).
Proof.
  unfold keyword_hits.
  now rewrite positive_words_list, (size_inter_list _ _ positive_list_NoDup).
Qed.

Lemma negative_hits_size (text : string) :
  keyword_hits negative_list text
  = size ((list_to_set (PyStr.split_ws (PyStr.lower text)) : gset string)
          ∩ Utils.negative_words).
Proof.
  unfold keyword_hits.
  now rewrite negative_words_list, (size_inter_list _ _ negative_list_NoDup).
Qed.

Lemma analyze_sentiment_hits (text : string) :
  Utils.analyze_sentiment text
  = if (keyword_hits negative_list text <? keyword_hits positive_list text)%nat
    then "positive"
    else if (keyword_hits positive_list text <? keyword_hits negative_list text)%nat
         then "negative" else "neutral".
Proof.
  rewrite positive_hits_size, negative_hits_size. reflexivity.
Qed.

End Sentiment.

(** C8.  For every text the tagger answers [positive] exactly when more
    positive than negative keywords occur among the whitespace-separated
    tokens of the lower-cased text, [negative] exactly when fewer do, and
    [neutral] exactly on a tie; a keyword counts once however often the
    text repeats it.  The three example sentences come out positive,
    negative and neutral.  Letter case does not count: a keyword written
    in capitals is a hit, and repeated in different cases it is one hit. *)
Theorem C8_sentiment_by_keyword_counts (text : string) :
  (Utils.analyze_sentiment text = "positive"
   <-> (keyword_hits negative_list text < keyword_hits positive_list text)%nat)
  /\ (Utils.analyze_sentiment text = "negative"
      <-> (keyword_hits positive_list text < keyword_hits negative_list text)%nat)
  /\ (Utils.analyze_sentiment text = "neutral"
      <-> keyword_hits positive_list text = keyword_hits negative_list text)
  /\ keyword_hits positive_list text
     = size ((list_to_set (PyStr.split_ws (PyStr.lower text)) : gset string)
             ∩ Utils.positive_words)
  /\ keyword_hits negative_list text
     = size ((list_to_set (PyStr.split_ws (PyStr.lower text)) : gset string)
             ∩ Utils.negative_words)
  /\ Utils.analyze_sentiment "This was a great and amazing experience" = "positive"
  /\ Utils.analyze_sentiment "This is hard and a difficult problem" = "negative"
  /\ Utils.analyze_sentiment "I work with Java" = "neutral"
  /\ Utils.analyze_sentiment "Great great GREAT work, bad timing" = "neutral"
  /\ Utils.analyze_sentiment "This was GREAT" = "positive"
  /\ Utils.analyze_sentiment "A Hard PROBLEM" = "negative"
  /\ Utils.analyze_sentiment "Good GOOD good bad Difficult" = "negative"
  /\ keyword_hits positive_list "Good GOOD good Love" = 2%nat
  /\ PyStr.split_ws (PyStr.lower "  This was
GREAT ") = ["this"; "was"; "great"].
Proof.
  rewrite analyze_sentiment_hits.
  split; [|split; [|split; [|split; [|split]]]].
  4: apply positive_hits_size.
  4: apply negative_hits_size.
  4: repeat split; vm_compute; reflexivity.
  all: destruct (Nat.ltb_spec (keyword_hits negative_list text)
                              (keyword_hits positive_list text)) as [H1|H1];
    [|destruct (Nat.ltb_spec (keyword_hits positive_list text)
                             (keyword_hits negative_list text)) as [H2|H2]];
    split; intros H; first [reflexivity | discriminate H | lia].
Qed.

(** ** Derivatives decide the language of a pattern *)

Section RegexFacts.

Lemma sapp_assoc (a b c : string) : (a +:+ b) +:+ c = a +:+ b +:+ c.
Proof.
  induction a as [|x a IH]; [reflexivity|].
  now rewrite !app_cons, IH.
Qed.

Lemma sapp_nil_r (a : string) : a +:+ "" = a.
Proof. induction a as [|x a IH]; [reflexivity|]. now rewrite app_cons, IH. Qed.

Lemma sapp_eq_nil (a b : string) : a +:+ b = "" -> a = "" /\ b = "".
Proof. destruct a; [now rewrite app_nil | rewrite app_cons; discriminate]. Qed.

Lemma sapp_eq_cons (a b s : string) (c : ascii) :
  a +:+ b = String c s ->
  (a = "" /\ b = String c s) \/ (exists a', a = String c a' /\ s = a' +:+ b).
Proof.
  destruct a as [|x a].
  - rewrite app_nil. now left.
  - rewrite app_cons. intros [= -> <-]. right. now exists a.
Qed.

Lemma nullable_lang (r : Re.regex) : Re.nullable r = true <-> Re.lang r "".
Proof.
  induction r as [| |p|r1 IH1 r2 IH2|r1 IH1 r2 IH2|r IH]; simpl.
  - split; [discriminate | inversion 1].
  - split; [constructor | reflexivity].
  - split; [discriminate | inversion 1].
  - rewrite andb_true_iff, IH1, IH2. split.
    + intros [H1 H2]. change "" with ("" +:+ ""). now constructor.
    + inversion 1 as [| |? ? s1 s2 H1 H2 Heq| | | |]; subst.
      match goal with E : _ +:+ _ = "" |- _ => apply sapp_eq_nil in E as [-> ->] end.
      now split.
  - rewrite orb_true_iff, IH1, IH2. split.
    + intros [H|H]; [now apply Re.lang_alt_l | now apply Re.lang_alt_r].
    + inversion 1; subst; tauto.
  - split; [constructor | reflexivity].
Qed.

Lemma star_cons_inv (r : Re.regex) (c : ascii) (s : string) :
  Re.lang (Re.Star r) (String c s) ->
  exists s1 s2, s = s1 +:+ s2 /\ Re.lang r (String c s1) /\ Re.lang (Re.Star r) s2.
Proof.
  intros H. remember (Re.Star r) as r' eqn:Er. remember (String c s) as t eqn:Et.
  revert s Et. induction H as [| | | | | |r0 s1 s2 H1 _ H2 IH2]; try discriminate.
  injection Er as ->. intros s Et.
  apply sapp_eq_cons in Et as [[-> ->]|(a' & -> & ->)].
  - now apply IH2.
  - now exists a', s2.
Qed.

Lemma deriv_lang (r : Re.regex) (c : ascii) (s : string) :
  Re.lang (Re.deriv c r) s <-> Re.lang r (String c s).
Proof.
  revert s. induction r as [| |p|r1 IH1 r2 IH2|r1 IH1 r2 IH2|r IH]; intros s; simpl.
  - split; inversion 1.
  - split; inversion 1.
  - destruct (p c) eqn:E.
    + split.
      * inversion 1; subst. now constructor.
      * inversion 1; subst. constructor.
    + split; [inversion 1|]. inversion 1; subst. congruence.
  - assert (Hcat : Re.lang (Re.Cat (Re.deriv c r1) r2) s
                   <-> exists a b, s = a +:+ b /\ Re.lang r1 (String c a) /\ Re.lang r2 b).
    { split.
      - inversion 1 as [| |? ? a b Ha Hb| | | |]; subst.
        exists a, b. split; [reflexivity|]. split; [now apply IH1 | exact Hb].
      - intros (a & b & -> & Ha & Hb). constructor; [now apply IH1 | exact Hb]. }
    assert (Hsplit : Re.lang (Re.Cat r1 r2) (String c s)
                     <-> (exists a b, s = a +:+ b /\ Re.lang r1 (String c a) /\ Re.lang r2 b)
                         \/ (Re.lang r1 "" /\ Re.lang r2 (String c s))).
    { split.
      - inversion 1 as [| |? ? a b Ha Hb Heq| | | |]; subst.
        match goal with E : _ +:+ _ = String _ _ |- _ =>
          apply sapp_eq_cons in E as [[-> ->]|(a' & -> & ->)] end.
        + now right.
        + left. now exists a', b.
      - intros [(a & b & -> & Ha & Hb)|[Ha Hb]].
        + rewrite <- app_cons. now constructor.
        + rewrite <- (app_nil (String c s)). now constructor. }
    rewrite Hsplit. destruct (Re.nullable r1) eqn:En.
    + split.
      * inversion 1; subst.
        -- left. now apply Hcat.
        -- right. split; [now apply nullable_lang | now apply IH2].
      * intros [H|[_ H]].
        -- apply Re.lang_alt_l. now apply Hcat.
        -- apply Re.lang_alt_r. now apply IH2.
    + rewrite Hcat. split; [now left|].
      intros [H|[H _]]; [exact H|].
      apply nullable_lang in H. congruence.
  - split.
    + inversion 1; subst; [apply Re.lang_alt_l | apply Re.lang_alt_r];
        [now apply IH1 | now apply IH2].
    + inversion 1; subst; [apply Re.lang_alt_l | apply Re.lang_alt_r];
        [now apply IH1 | now apply IH2].
  - split.
    + inversion 1 as [| |? ? a b Ha Hb| | | |]; subst.
      rewrite <- app_cons. constructor; [now apply IH | exact Hb].
    + intros H. apply star_cons_inv in H as (a & b & -> & Ha & Hb).
      constructor; [now apply IH | exact Hb].
Qed.

Lemma matches_lang (r : Re.regex) (s : string) :
  Re.matches r s = true <-> Re.lang r s.
Proof.
  revert r. induction s as [|c s IH]; intros r; simpl.
  - apply nullable_lang.
  - rewrite IH. apply deriv_lang.
Qed.

End RegexFacts.

(** ** The e-mail pattern *)

Section Email.

Lemma lang_cat_iff (r1 r2 : Re.regex) (s : string) :
  Re.lang (Re.Cat r1 r2) s
  <-> exists a b, s = a +:+ b /\ Re.lang r1 a /\ Re.lang r2 b.
Proof.
  split.
  - inversion 1; subst. eauto.
  - intros (a & b & -> & Ha & Hb). now constructor.
Qed.

Lemma lang_class_iff (p : ascii -> bool) (s : string) :
  Re.lang (Re.Class p) s <-> exists c, s = String c "" /\ p c = true.
Proof.
  split.
  - inversion 1; subst. eauto.
  - intros (c & -> & Hc). now constructor.
Qed.

Lemma lang_lit_iff (c : ascii) (s : string) :
  Re.lang (Re.Lit c) s <-> s = String c "".
Proof.
  unfold Re.Lit. rewrite lang_class_iff. split.
  - intros (d & -> & Hd). apply Ascii.eqb_eq in Hd. now subst.
  - intros ->. exists c. split; [reflexivity | apply Ascii.eqb_refl].
Qed.

Lemma lang_star_class (p : ascii -> bool) (s : string) :
  Re.lang (Re.Star (Re.Class p)) s <-> PyStr.all p s = true.
Proof.
  split.
  - intros H. remember (Re.Star (Re.Class p)) as r eqn:Er.
    induction H as [| | | | | |r0 s1 s2 H1 _ H2 IH2]; try discriminate.
    + reflexivity.
    + injection Er as ->. apply lang_class_iff in H1 as (c & -> & Hc).
      rewrite app_cons, app_nil. simpl. now rewrite Hc, IH2.
  - induction s as [|c s IH]; simpl.
    + intros _. constructor.
    + intros [Hc Hs]%andb_true_iff.
      change (String c s) with (String c "" +:+ s).
      constructor; [now constructor | now apply IH].
Qed.

Lemma lang_plus_class (p : ascii -> bool) (s : string) :
  Re.lang (Re.Plus (Re.Class p)) s <-> s <> "" /\ PyStr.all p s = true.
Proof.
  unfold Re.Plus. rewrite lang_cat_iff. split.
  - intros (a & b & -> & Ha & Hb).
    apply lang_class_iff in Ha as (c & -> & Hc). apply lang_star_class in Hb.
    rewrite app_cons, app_nil. split; [discriminate|]. simpl. now rewrite Hc, Hb.
  - intros [Hne Hall]. destruct s as [|c s]; [contradiction|].
    simpl in Hall. apply andb_true_iff in Hall as [Hc Hs].
    exists (String c ""), s. split; [reflexivity|].
    split; [now constructor | now apply lang_star_class].
Qed.

Lemma lang_two_or_more (p : ascii -> bool) (s : string) :
  Re.lang (Re.Cat (Re.Class p) (Re.Cat (Re.Class p) (Re.Star (Re.Class p)))) s
  <-> (2 <= String.length s)%nat /\ PyStr.all p s = true.
Proof.
  rewrite lang_cat_iff. split.
  - intros (a & b & -> & Ha & Hb).
    apply lang_class_iff in Ha as (c & -> & Hc).
    apply lang_cat_iff in Hb as (a' & b' & -> & Ha' & Hb').
    apply lang_class_iff in Ha' as (d & -> & Hd). apply lang_star_class in Hb'.
    rewrite !app_cons, !app_nil. simpl. rewrite Hc, Hd, Hb'. split; [lia | reflexivity].
  - intros [Hlen Hall]. destruct s as [|c [|d s]]; simpl in Hlen; try lia.
    simpl in Hall. apply andb_true_iff in Hall as [Hc [Hd Hs]%andb_true_iff].
    exists (String c ""), (String d s). split; [reflexivity|].
    split; [now constructor|]. apply lang_cat_iff.
    exists (String d ""), s. split; [reflexivity|].
    split; [now constructor | now apply lang_star_class].
Qed.

Lemma lang_opt_lit (c : ascii) (s : string) :
  Re.lang (Re.Opt (Re.Lit c)) s <-> s = "" \/ s = String c "".
Proof.
  unfold Re.Opt. split.
  - inversion 1; subst.
    + right. now apply lang_lit_iff.
    + left. match goal with H : Re.lang Re.Eps _ |- _ => now inversion H end.
  - intros [->| ->].
    + apply Re.lang_alt_r. constructor.
    + apply Re.lang_alt_l. now apply lang_lit_iff.
Qed.

Lemma validate_email_parts (email : string) :
  Utils.validate_email email = true
  <-> exists loc dom tld tail,
        email = loc +:+ "@" +:+ dom +:+ "." +:+ tld +:+ tail
        /\ loc <> "" /\ PyStr.all Utils.is_local loc = true
        /\ dom <> "" /\ PyStr.all Utils.is_domain dom = true
        /\ (2 <= String.length tld)%nat /\ PyStr.all Utils.is_alpha tld = true
        /\ (tail = "" \/ tail = String Utils.newline "").
Proof.
  unfold Utils.validate_email, Utils.email_pattern. rewrite matches_lang.
  split.
  - intros H.
    apply lang_cat_iff in H as (loc & r1 & -> & Hloc & H).
    apply lang_cat_iff in H as (at_ & r2 & -> & Hat & H).
    apply lang_cat_iff in H as (dom & r3 & -> & Hdom & H).
    apply lang_cat_iff in H as (dot & r4 & -> & Hdot & H).
    apply lang_cat_iff in H as (tld & tail & -> & Htld & Htail).
    apply lang_lit_iff in Hat as ->. apply lang_lit_iff in Hdot as ->.
    apply lang_plus_class in Hloc as [? ?]. apply lang_plus_class in Hdom as [? ?].
    apply lang_two_or_more in Htld as [? ?]. apply lang_opt_lit in Htail.
    exists loc, dom, tld, tail. repeat split; assumption.
  - intros (loc & dom & tld & tail & -> & H1 & H2 & H3 & H4 & H5 & H6 & H7).
    apply lang_cat_iff. exists loc, ("@" +:+ dom +:+ "." +:+ tld +:+ tail).
    split; [reflexivity|]. split; [now apply lang_plus_class|].
    apply lang_cat_iff. exists "@", (dom +:+ "." +:+ tld +:+ tail).
    split; [reflexivity|]. split; [now apply lang_lit_iff|].
    apply lang_cat_iff. exists dom, ("." +:+ tld +:+ tail).
    split; [reflexivity|]. split; [now apply lang_plus_class|].
    apply lang_cat_iff. exists ".", (tld +:+ tail).
    split; [reflexivity|]. split; [now apply lang_lit_iff|].
    apply lang_cat_iff. exists tld, tail.
    split; [reflexivity|]. split; [now apply lang_two_or_more | now apply lang_opt_lit].
Qed.

End Email.

(** X1.  [validate_email] accepts exactly the texts made of a non-empty local
    part over letters, digits and [._%+-], an ["@"], a non-empty domain over
    letters, digits, dots and hyphens, a dot, and at least two letters,
    optionally followed by one final line break. *)
Theorem validate_email_shape (email : string) :
  Utils.validate_email email = true
  <-> exists loc dom tld tail,
        email = loc +:+ "@" +:+ dom +:+ "." +:+ tld +:+ tail
        /\ loc <> "" /\ PyStr.all Utils.is_local loc = true
        /\ dom <> "" /\ PyStr.all Utils.is_domain dom = true
        /\ (2 <= String.length tld)%nat /\ PyStr.all Utils.is_alpha tld = true
        /\ (tail = "" \/ tail = String Utils.newline "").
Proof. apply validate_email_parts. Qed.

(** X2.  Every address the strict check of [utils.py] accepts is also
    accepted by the loose check the chatbot applies at step [email]. *)
Theorem validate_email_implies_chatbot_check (email : string) :
  Utils.validate_email email = true -> validate_response "email" email = true.
Proof.
  intros H. apply validate_email_parts in H
    as (loc & dom & tld & tail & -> & Hloc & _).
  unfold validate_response.
  destruct loc as [|c loc]; [contradiction|]. rewrite app_cons.
  change (String c (loc +:+ "@" +:+ dom +:+ "." +:+ tld +:+ tail) =? "")%string with false.
  cbv iota. change ("email" =? "email")%string with true. cbv iota.
  rewrite <- app_cons. apply andb_true_iff. split; apply contains_iff.
  - exists (String c loc), (dom +:+ "." +:+ tld +:+ tail). reflexivity.
  - exists (String c loc +:+ "@" +:+ dom), (tld +:+ tail).
    now rewrite !sapp_assoc.
Qed.

Lemma validate_email_implies_chatbot_check_witness :
  Utils.validate_email "jane.doe@example.org" = true
  /\ validate_response "email" "jane.doe@example.org" = true.
Proof.
  split; [reflexivity|].
  apply validate_email_implies_chatbot_check. reflexivity.
Defined.

Example email_checks_differ :
  validate_response "email" "@." = true /\ Utils.validate_email "@." = false.
Proof. split; reflexivity. Qed.

(** ** The step sequence *)

Section Steps.

Lemma step_cases (s : string) :
  In s step_sequence \/ (~ In s step_sequence /\ index_of s step_sequence = None).
Proof.
  unfold step_sequence. cbn [index_of].
  repeat match goal with
         | |- context [(?a =? s)%string] =>
             destruct (String.eqb_spec a s) as [<-|?]; [left; simpl; tauto|]
         end.
  right. split; [|reflexivity]. simpl. intuition congruence.
Qed.

Lemma next_step_is_tech_questions (s : string) :
  determine_next_step s = "tech_questions" <-> s = "tech_stack" \/ s = "tech_questions".
Proof.
  destruct (step_cases s) as [Hin|[Hn Hi]].
  - simpl in Hin.
    repeat (destruct Hin as [<-|Hin]; [vm_compute; intuition congruence|]).
    contradiction.
  - unfold determine_next_step. rewrite Hi. split; [discriminate|].
    intros [->| ->]; exfalso; apply Hn; simpl; tauto.
Qed.

Lemma handle_tech_questions_step (self : chatbot) (info : gmap string pyval)
    (answer : string) :
  current_step (fst (fst (handle_tech_questions self info answer))) = current_step self
  /\ conversation_started (fst (fst (handle_tech_questions self info answer)))
     = conversation_started self.
Proof.
  unfold handle_tech_questions.
  destruct (truthy (tech_questions_cache self)); cbn [negb].
  - cbn [with_index tech_questions_cache current_question_index].
    destruct (_ <=? _)%Z; [now split|]. now destruct (cache_get _ _).
  - destruct (info !! "tech_stack") as [ts|]; [|now split].
    destruct (info !! "experience") as [e|]; [|now split].
    destruct (as_seq ts) as [techs|]; [|now split].
    cbn [with_index with_cache tech_questions_cache]. now destruct (cache_get _ _).
Qed.

(** The shape of a call whose answer is accepted. *)
Lemma get_response_accepted (self : chatbot) (messages : list Message)
    (info : gmap string pyval) :
  conversation_started self = true ->
  should_end_conversation (last_content messages) = false ->
  current_step self <> "tech_questions" ->
  validate_response (current_step self) (last_content messages) = true ->
  get_response self messages info
  = if (determine_next_step (current_step self) =? "tech_questions")%string
    then (fst (fst (handle_tech_questions
                      (with_step (determine_next_step (current_step self)) self)
                      (update_candidate_info (current_step self) (last_content messages) info)
                      "")),
          info,
          snd (handle_tech_questions
                 (with_step (determine_next_step (current_step self)) self)
                 (update_candidate_info (current_step self) (last_content messages) info)
                 ""))
    else (with_step (determine_next_step (current_step self)) self, info,
          Ok ("Thank you. " +:+ get_next_question (determine_next_step (current_step self)))).
Proof.
  intros Hs He Hstep Hv. unfold get_response. cbv zeta.
  rewrite Hs, He, Hv. cbn [negb].
  destruct (String.eqb_spec (current_step self) "tech_questions") as [E|_];
    [contradiction|].
  cbn [with_step current_step].
  destruct (_ =? "tech_questions")%string; [|reflexivity].
  now destruct (handle_tech_questions _ _ _) as [[s i] r].
Qed.

End Steps.

(** X3.  [determine_next_step] never leaves the fixed sequence: a step that
    is in the sequence at position [i] is followed by the step at position
    [i + 1], the last step [tech_questions] is followed by itself and is the
    only step that is, and every other text is followed by [name]. *)
Theorem determine_next_step_sequence (s : string) :
  In (determine_next_step s) step_sequence
  /\ (forall i, step_index s = Some i ->
        step_index (determine_next_step s) = Some (Nat.min (i + 1) 7))
  /\ (~ In s step_sequence -> determine_next_step s = "name")
  /\ (determine_next_step s = s <-> s = "tech_questions").
Proof.
  destruct (step_cases s) as [Hin|[Hn Hi]].
  - simpl in Hin.
    repeat (destruct Hin as [<-|Hin];
            [ split; [simpl; tauto|]; split; [intros i [= <-]; reflexivity|];
              split; [intros Hn; exfalso; apply Hn; simpl; tauto|];
              vm_compute; intuition congruence |]).
    contradiction.
  - unfold step_index, determine_next_step. rewrite Hi.
    split; [simpl; tauto|]. split; [discriminate|]. split; [reflexivity|].
    split.
    + intros <-. exfalso. apply Hn. simpl. tauto.
    + intros ->. exfalso. apply Hn. simpl. tauto.
Qed.

(** ** The field validator *)

(** X4.  At step [email] an answer is valid exactly when an ["@"] and a
    ["."] occur in it, in whatever order and position. *)
Theorem validate_response_email (x : string) :
  validate_response "email" x = true
  <-> (exists a b, x = a +:+ "@" +:+ b) /\ (exists a b, x = a +:+ "." +:+ b).
Proof.
  unfold validate_response, PyStr.has_char.
  destruct x as [|c x].
  - split; [discriminate|]. intros [(a & b & H) _].
    symmetry in H. apply sapp_eq_nil in H as [_ H]. discriminate.
  - change (String c x =? "")%string with false. cbv iota.
    change ("email" =? "email")%string with true. cbv iota.
    now rewrite andb_true_iff, !contains_iff.
Qed.

(** X5.  At step [experience] an answer is valid exactly when it has at
    least one digit character; at a step other than [email], [phone] and
    [experience] (so at [name], [position], [location] and [tech_stack]) it is
    valid exactly when it is not empty. *)
Theorem validate_response_experience_and_text (step x : string) :
  (validate_response "experience" x = true <-> (1 <= digit_count x)%nat)
  /\ (step <> "email" -> step <> "phone" -> step <> "experience" ->
      (validate_response step x = true <-> x <> "")).
Proof.
  split.
  - unfold validate_response. destruct x as [|c x]; [simpl; split; [discriminate | lia]|].
    change (String c x =? "")%string with false. cbv iota.
    change ("experience" =? "email")%string with false.
    change ("experience" =? "phone")%string with false.
    change ("experience" =? "experience")%string with true. cbv iota.
    generalize (String c x). clear. intros s.
    induction s as [|d s IH]; simpl; [split; [discriminate | lia]|].
    destruct (PyStr.isdigit d); simpl; [split; [lia | reflexivity]|].
    rewrite IH. reflexivity.
  - intros H1 H2 H3. unfold validate_response.
    destruct (String.eqb_spec x "") as [->|Hx]; [split; [discriminate | congruence]|].
    destruct (String.eqb_spec step "email"); [contradiction|].
    destruct (String.eqb_spec step "phone"); [contradiction|].
    destruct (String.eqb_spec step "experience"); [contradiction|].
    split; [intros _; exact Hx | reflexivity].
Qed.

(** ** Updating the candidate dictionary *)

Section Update.

(** The dictionary after the two bookkeeping defaults are filled in. *)
Lemma update_candidate_info_defaults (info : gmap string pyval) (k : string) :
  (if negb (has_key "tech_questions_asked"
              (if negb (has_key "tech_stack" info)
               then <["tech_stack" := VList []]> info else info))
   then <["tech_questions_asked" := VBool false]>
          (if negb (has_key "tech_stack" info)
           then <["tech_stack" := VList []]> info else info)
   else (if negb (has_key "tech_stack" info)
         then <["tech_stack" := VList []]> info else info)) !! k
  = match info !! k with
    | Some v => Some v
    | None =>
        if (k =? "tech_stack")%string then Some (VList [])
        else if (k =? "tech_questions_asked")%string then Some (VBool false)
        else None
    end.
Proof.
  unfold has_key at 2 3 4.
  destruct (info !! "tech_stack") as [ts|] eqn:Ets; cbn [negb];
    unfold has_key.
  - destruct (info !! "tech_questions_asked") as [a|] eqn:Ea; cbn [negb].
    + destruct (info !! k) as [v|] eqn:Ek; [reflexivity|].
      destruct (String.eqb_spec k "tech_stack") as [->|]; [congruence|].
      destruct (String.eqb_spec k "tech_questions_asked") as [->|]; [congruence|].
      reflexivity.
    + destruct (String.eqb_spec k "tech_questions_asked") as [->|Hk].
      * rewrite lookup_insert_eq, Ea. reflexivity.
      * rewrite lookup_insert_ne by congruence.
        destruct (info !! k) as [v|] eqn:Ek; [reflexivity|].
        destruct (String.eqb_spec k "tech_stack") as [->|]; [congruence | reflexivity].
  - rewrite lookup_insert_ne by discriminate.
    destruct (info !! "tech_questions_asked") as [a|] eqn:Ea; cbn [negb].
    + destruct (String.eqb_spec k "tech_stack") as [->|Hk].
      * rewrite lookup_insert_eq, Ets. reflexivity.
      * rewrite lookup_insert_ne by congruence.
        destruct (info !! k) as [v|] eqn:Ek; [reflexivity|].
        destruct (String.eqb_spec k "tech_questions_asked") as [->|]; [congruence | reflexivity].
    + destruct (String.eqb_spec k "tech_questions_asked") as [->|Hk].
      * rewrite lookup_insert_eq, Ea. reflexivity.
      * rewrite lookup_insert_ne by congruence.
        destruct (String.eqb_spec k "tech_stack") as [->|Hk'].
        -- rewrite lookup_insert_eq, Ets. reflexivity.
        -- rewrite lookup_insert_ne by congruence. now destruct (info !! k).
Qed.

Lemma update_candidate_info_other (step x : string) (info : gmap string pyval)
    (k : string) :
  k <> step ->
  update_candidate_info step x info !! k
  = match info !! k with
    | Some v => Some v
    | None =>
        if (k =? "tech_stack")%string then Some (VList [])
        else if (k =? "tech_questions_asked")%string then Some (VBool false)
        else None
    end.
Proof.
  intros Hk. rewrite <- update_candidate_info_defaults.
  unfold update_candidate_info. cbv zeta.
  repeat match goal with
         | |- context [(step =? ?a)%string] =>
             destruct (String.eqb_spec step a) as [->|?];
             [now rewrite lookup_insert_ne by congruence|]
         end.
  reflexivity.
Qed.

Lemma update_candidate_info_unknown (step x : string) (info : gmap string pyval)
    (k : string) :
  ~ In step ["name"; "email"; "phone"; "experience"; "position"; "location"; "tech_stack"] ->
  update_candidate_info step x info !! k
  = match info !! k with
    | Some v => Some v
    | None =>
        if (k =? "tech_stack")%string then Some (VList [])
        else if (k =? "tech_questions_asked")%string then Some (VBool false)
        else None
    end.
Proof.
  intros Hn. rewrite <- update_candidate_info_defaults.
  unfold update_candidate_info. cbv zeta.
  repeat match goal with
         | |- context [(step =? ?a)%string] =>
             destruct (String.eqb_spec step a) as [->|?];
             [exfalso; apply Hn; simpl; tauto|]
         end.
  reflexivity.
Qed.

Lemma update_candidate_info_written (step x : string) (info : gmap string pyval) :
  In step ["name"; "email"; "phone"; "experience"; "position"; "location"] ->
  update_candidate_info step x info !! step = Some (VStr x).
Proof.
  intros Hin. simpl in Hin.
  repeat (destruct Hin as [<-|Hin];
          [unfold update_candidate_info; cbv zeta; simpl; now rewrite lookup_insert_eq|]).
  contradiction.
Qed.

Lemma update_candidate_info_tech_stack (x : string) (info : gmap string pyval) :
  update_candidate_info "tech_stack" x info !! "tech_stack"
  = Some (VList (map PyStr.strip (PyStr.split "," x))).
Proof. unfold update_candidate_info. cbv zeta. simpl. now rewrite lookup_insert_eq. Qed.

End Update.

(** X6.  [update_candidate_info] returns a dictionary in which the field
    named by the step holds the answer: the text itself for [name], [email],
    [phone], [experience], [position] and [location], and for [tech_stack]
    the list of the comma-separated entries, each trimmed. *)
Theorem update_candidate_info_stores_answer (step x : string)
    (info : gmap string pyval) :
  (In step ["name"; "email"; "phone"; "experience"; "position"; "location"] ->
   update_candidate_info step x info !! step = Some (VStr x))
  /\ update_candidate_info "tech_stack" x info !! "tech_stack"
     = Some (VList (map PyStr.strip (PyStr.split "," x))).
Proof.
  split; [apply update_candidate_info_written | apply update_candidate_info_tech_stack].
Qed.

(** X7.  Apart from the field of the step, [update_candidate_info] keeps
    every entry of the dictionary; a missing [tech_stack] entry is filled in
    with the empty list and a missing [tech_questions_asked] entry with false,
    and no other key is added.  For a step that names no field (such as
    [tech_questions]) this holds for every key. *)
Theorem update_candidate_info_keeps_rest (step x : string)
    (info : gmap string pyval) (k : string) :
  k <> step
  \/ ~ In step ["name"; "email"; "phone"; "experience"; "position"; "location"; "tech_stack"] ->
  update_candidate_info step x info !! k
  = match info !! k with
    | Some v => Some v
    | None =>
        if (k =? "tech_stack")%string then Some (VList [])
        else if (k =? "tech_questions_asked")%string then Some (VBool false)
        else None
    end.
Proof.
  intros [H|H];
    [now apply update_candidate_info_other | now apply update_candidate_info_unknown].
Qed.

Lemma update_candidate_info_keeps_rest_witness :
  update_candidate_info "email" "a@b.c" (<["name" := VStr "Ann"]> ∅) !! "name"
  = Some (VStr "Ann")
  /\ update_candidate_info "email" "a@b.c" (<["name" := VStr "Ann"]> ∅)
     !! "tech_questions_asked" = Some (VBool false).
Proof.
  split.
  - rewrite (update_candidate_info_keeps_rest "email" "a@b.c" _ "name")
      by (left; discriminate).
    reflexivity.
  - rewrite (update_candidate_info_keeps_rest "email" "a@b.c" _ "tech_questions_asked")
      by (left; discriminate).
    reflexivity.
Defined.

(** ** Accepted answers *)

(** X8.  Once the greeting has been given, at each of the steps [name],
    [email], [phone], [experience], [position] and [location], an answer
    that is valid for the step and has no exit keyword moves the chatbot to
    the next step of the sequence, exactly one position further, and is
    answered with ["Thank you. "] and the next step's prompt; the cache, the
    index and the caller's dictionary stay as they are. *)
Theorem accepted_answer_advances_one_step (self : chatbot) (messages : list Message)
    (info : gmap string pyval) :
  conversation_started self = true ->
  In (current_step self) ["name"; "email"; "phone"; "experience"; "position"; "location"] ->
  validate_response (current_step self) (last_content messages) = true ->
  should_end_conversation (last_content messages) = false ->
  get_response self messages info
  = (with_step (determine_next_step (current_step self)) self, info,
     Ok ("Thank you. " +:+ get_next_question (determine_next_step (current_step self))))
  /\ step_index (determine_next_step (current_step self))
     = S <$> step_index (current_step self)
  /\ get_next_question (determine_next_step (current_step self)) <> "".
Proof.
  intros Hs Hin Hv He.
  assert (Hne : current_step self <> "tech_questions").
  { intros E. rewrite E in Hin. simpl in Hin. intuition discriminate. }
  rewrite (get_response_accepted self messages info Hs He Hne Hv).
  clear Hv Hne. simpl in Hin.
  repeat (destruct Hin as [<-|Hin]; [repeat split; discriminate|]).
  contradiction.
Qed.

Lemma accepted_answer_advances_one_step_witness :
  get_response (with_step "phone" (with_started true init))
               [user_says "555-123-4567"] initial_candidate_info
  = (with_step "experience" (with_started true init), initial_candidate_info,
     Ok "Thank you. How many years of experience do you have in your field?").
Proof.
  apply (accepted_answer_advances_one_step
           (with_step "phone" (with_started true init))
           [user_says "555-123-4567"] initial_candidate_info).
  - reflexivity.
  - simpl. tauto.
  - reflexivity.
  - reflexivity.
Defined.

(** X9.  At step [tech_stack], a non-empty answer without exit keyword,
    given while the cache is empty and the caller's dictionary has an
    [experience] entry, starts the technical phase: the questions are
    generated from the entries of this very answer (split at commas and
    trimmed) and stored, the index is 0, the reply is the introduction with
    question 1, and the caller's dictionary is unchanged. *)
Theorem tech_stack_answer_starts_questions (self : chatbot) (messages : list Message)
    (info : gmap string pyval) (experience : pyval) :
  conversation_started self = true ->
  current_step self = "tech_stack" ->
  last_content messages <> "" ->
  should_end_conversation (last_content messages) = false ->
  truthy (tech_questions_cache self) = false ->
  info !! "experience" = Some experience ->
  exists q,
    generate_tech_questions
      (map PyStr.strip (PyStr.split "," (last_content messages))) experience !! 0%nat
    = Some q
    /\ get_response self messages info
       = (mkChatbot true "tech_questions"
            (Questions (generate_tech_questions
                          (map PyStr.strip (PyStr.split "," (last_content messages)))
                          experience)) 0,
          info,
          Ok (intro_message (map PyStr.strip (PyStr.split "," (last_content messages))) q)).
Proof.
  intros Hs Hstep Hx He Ht Hexp.
  assert (Hv : validate_response (current_step self) (last_content messages) = true).
  { rewrite Hstep. unfold validate_response.
    destruct (String.eqb_spec (last_content messages) ""); [contradiction | reflexivity]. }
  assert (Hne : current_step self <> "tech_questions") by (rewrite Hstep; discriminate).
  rewrite (get_response_accepted self messages info Hs He Hne Hv).
  rewrite Hstep.
  change (determine_next_step "tech_stack" =? "tech_questions")%string with true.
  cbv iota. change (determine_next_step "tech_stack") with "tech_questions".
  destruct (handle_tech_questions_first
              (with_step "tech_questions" self)
              (update_candidate_info "tech_stack" (last_content messages) info) ""
              (VList (map PyStr.strip (PyStr.split "," (last_content messages))))
              experience
              (map PyStr.strip (PyStr.split "," (last_content messages))))
    as (q & Hq & Hh).
  - exact Ht.
  - apply update_candidate_info_tech_stack.
  - reflexivity.
  - rewrite update_candidate_info_other by discriminate. now rewrite Hexp.
  - exists q. split; [exact Hq|]. rewrite Hh. cbn [fst snd].
    destruct self as [st cs ca ix]. simpl in Hs. subst st. reflexivity.
Qed.

Lemma tech_stack_answer_starts_questions_witness :
  exists q,
    generate_tech_questions ["Coq"; "OCaml"] (VStr "") !! 0%nat = Some q
    /\ get_response (with_step "tech_stack" (with_started true init))
                    [user_says " Coq,OCaml "] initial_candidate_info
       = (mkChatbot true "tech_questions"
            (Questions (generate_tech_questions ["Coq"; "OCaml"] (VStr ""))) 0,
          initial_candidate_info,
          Ok (intro_message ["Coq"; "OCaml"] q)).
Proof.
  apply (tech_stack_answer_starts_questions
           (with_step "tech_stack" (with_started true init))
           [user_says " Coq,OCaml "] initial_candidate_info (VStr "")).
  - reflexivity.
  - reflexivity.
  - discriminate.
  - reflexivity.
  - reflexivity.
  - vm_compute. reflexivity.
Defined.

(** X10.  If the caller's dictionary has no [experience] entry, the same
    answer at step [tech_stack] raises [KeyError] after the step has already
    been moved to [tech_questions], with the cache still empty; from then on
    every call without exit keyword raises a [KeyError] again and changes
    nothing, so the conversation cannot go on. *)
Theorem missing_experience_entry_blocks (self : chatbot) (messages : list Message)
    (info : gmap string pyval) :
  conversation_started self = true ->
  current_step self = "tech_stack" ->
  last_content messages <> "" ->
  should_end_conversation (last_content messages) = false ->
  truthy (tech_questions_cache self) = false ->
  info !! "experience" = None ->
  get_response self messages info
  = (with_step "tech_questions" self, info, Raise (KeyError "experience"))
  /\ (forall later : list Message,
        should_end_conversation (last_content later) = false ->
        get_response (with_step "tech_questions" self) later info
        = (with_step "tech_questions" self, info,
           Raise (KeyError (if has_key "tech_stack" info
                            then "experience" else "tech_stack")))).
Proof.
  intros Hs Hstep Hx He Ht Hexp.
  assert (Hv : validate_response (current_step self) (last_content messages) = true).
  { rewrite Hstep. unfold validate_response.
    destruct (String.eqb_spec (last_content messages) ""); [contradiction | reflexivity]. }
  assert (Hne : current_step self <> "tech_questions") by (rewrite Hstep; discriminate).
  split.
  - rewrite (get_response_accepted self messages info Hs He Hne Hv).
    rewrite Hstep.
    change (determine_next_step "tech_stack" =? "tech_questions")%string with true.
    cbv iota. change (determine_next_step "tech_stack") with "tech_questions".
    unfold handle_tech_questions. cbn [with_step tech_questions_cache].
    rewrite Ht. cbn [negb].
    rewrite update_candidate_info_tech_stack.
    rewrite update_candidate_info_other by discriminate. rewrite Hexp.
    reflexivity.
  - intros later Hl. unfold get_response. cbv zeta.
    cbn [with_step conversation_started current_step]. rewrite Hs, Hl. cbn [negb].
    change ("tech_questions" =? "tech_questions")%string with true. cbv iota.
    unfold handle_tech_questions. cbn [with_step tech_questions_cache].
    rewrite Ht. cbn [negb]. unfold has_key. destruct (info !! "tech_stack"); [|reflexivity].
    now rewrite Hexp.
Qed.

Lemma missing_experience_entry_blocks_witness :
  get_response (with_step "tech_stack" (with_started true init)) [user_says "Coq"] ∅
  = (with_step "tech_questions" (with_step "tech_stack" (with_started true init)), ∅,
     Raise (KeyError "experience")).
Proof.
  apply (missing_experience_entry_blocks
           (with_step "tech_stack" (with_started true init)) [user_says "Coq"] ∅).
  - reflexivity.
  - reflexivity.
  - discriminate.
  - reflexivity.
  - reflexivity.
  - reflexivity.
Defined.

(** ** What every reachable chatbot object satisfies *)

Section Reachable.

Lemma determine_next_step_index (s : string) (i : nat) :
  step_index s = Some i ->
  step_index (determine_next_step s) = Some (Nat.min (i + 1) 7)
  /\ In (determine_next_step s) step_sequence.
Proof.
  destruct (step_cases s) as [Hin|[_ Hi]].
  - simpl in Hin.
    repeat (destruct Hin as [<-|Hin];
            [intros [= <-]; split; [reflexivity | simpl; tauto]|]).
    contradiction.
  - unfold step_index. rewrite Hi. discriminate.
Qed.

Lemma step_index_in (s : string) : In s step_sequence -> is_Some (step_index s).
Proof.
  intros Hin. simpl in Hin.
  repeat (destruct Hin as [<-|Hin]; [eexists; reflexivity|]).
  contradiction.
Qed.

Lemma cache_get_in_range (qs : list string) (i : Z) :
  (0 <= i < Z.of_nat (length qs))%Z -> exists q, cache_get (Questions qs) i = inr q.
Proof.
  intros [H0 H1]. unfold cache_get, py_index.
  destruct (Z.leb_spec 0 i) as [_|]; [|lia].
  destruct (qs !! Z.to_nat i) as [q|] eqn:E; [now exists q|].
  apply lookup_ge_None_1 in E. lia.
Qed.

Lemma get_response_well_formed (self : chatbot) (messages : list Message)
    (info : gmap string pyval) :
  well_formed self ->
  is_Some (info !! "experience") ->
  well_formed (fst (fst (get_response self messages info)))
  /\ exists reply, snd (get_response self messages info) = Ok reply.
Proof.
  intros Hwf [e He]. pose proof Hwf as (Hi & Hin & Ht & Hc & Hz).
  unfold get_response. cbv zeta.
  destruct (conversation_started self) eqn:Hs; cbn [negb].
  2:{ split; [exact Hwf | eauto]. }
  destruct (should_end_conversation _) eqn:Hend.
  { split; [exact Hwf | eauto]. }
  destruct (String.eqb_spec (current_step self) "tech_questions") as [Hstep|Hstep].
  - (* an answer to a technical question *)
    assert (Htr : truthy (tech_questions_cache self) = true) by now apply Ht.
    rewrite (handle_tech_questions_later _ _ _ Htr). cbn [fst snd].
    split.
    + unfold well_formed. cbn [with_index current_question_index current_step
                                 tech_questions_cache].
      split; [lia|]. split; [exact Hin|]. split; [exact Ht|]. split; [exact Hc|].
      intros E. rewrite E in Htr. discriminate.
    + destruct (_ <=? _)%Z eqn:El; [eauto|]. apply Z.leb_gt in El.
      destruct (tech_questions_cache self) as [|qs] eqn:Ec; [discriminate|].
      cbn [cache_len] in El.
      destruct (cache_get_in_range qs (current_question_index self + 1)) as [q Hq];
        [lia|].
      rewrite Hq. eauto.
  - destruct (validate_response _ _) eqn:Hv; cbn [negb].
    2:{ split; [exact Hwf | eauto]. }
    assert (Hfalse : truthy (tech_questions_cache self) = false).
    { destruct (truthy (tech_questions_cache self)); [|reflexivity].
      exfalso. apply Hstep. now apply Ht. }
    assert (Hempty : tech_questions_cache self = EmptyDict).
    { destruct Hc as [Hc|(techs & ex & Hc)]; [exact Hc|].
      rewrite Hc, generate_tech_questions_truthy in Hfalse. discriminate. }
    destruct (step_index_in _ Hin) as [i Hidx].
    destruct (determine_next_step_index _ _ Hidx) as [Hnext Hnin].
    cbn [with_step current_step].
    destruct (String.eqb_spec (determine_next_step (current_step self)) "tech_questions")
      as [En|En].
    + (* the answer at [tech_stack] *)
      apply next_step_is_tech_questions in En as Hts.
      destruct Hts as [Hts|Hts]; [|contradiction].
      rewrite En, Hts.
      destruct (handle_tech_questions_first
                  (with_step "tech_questions" self)
                  (update_candidate_info "tech_stack" (last_content messages) info) ""
                  (VList (map PyStr.strip (PyStr.split "," (last_content messages))))
                  e
                  (map PyStr.strip (PyStr.split "," (last_content messages))))
        as (q & _ & Hh).
      * exact Hfalse.
      * apply update_candidate_info_tech_stack.
      * reflexivity.
      * rewrite update_candidate_info_other by discriminate. now rewrite He.
      * rewrite Hh. cbn [fst snd]. split; [|eauto].
        unfold well_formed. cbn [with_index with_cache with_step current_question_index
                                   current_step tech_questions_cache].
        split; [lia|]. split; [simpl; tauto|].
        split; [now rewrite generate_tech_questions_truthy|].
        split; [right; eauto | discriminate].
    + cbn [fst snd]. split; [|eauto].
      unfold well_formed. cbn [with_step current_question_index current_step
                                 tech_questions_cache].
      split; [exact Hi|]. split; [exact Hnin|].
      split; [rewrite Hfalse; split; [discriminate | contradiction]|].
      split; [exact Hc | exact Hz].
Qed.

Lemma reachable_well_formed (self : chatbot) : reachable self -> well_formed self.
Proof.
  induction 1 as [|self messages info _ IH He].
  - unfold well_formed, init. simpl. split; [lia|]. split; [tauto|].
    split; [split; discriminate|]. split; [now left | reflexivity].
  - now apply get_response_well_formed.
Qed.

End Reachable.

(** X11.  Every chatbot object that calls of [get_response] produce from a new
    one, with dictionaries that have an [experience] entry, keeps the
    following: the question index is not negative; the current step is one
    of the eight steps; the cache is non-empty exactly at step
    [tech_questions]; the cache is the empty dictionary or a generated
    question list; and while it is the empty dictionary the index is 0. *)
Theorem reachable_chatbot_well_formed (self : chatbot) :
  reachable self -> well_formed self.
Proof. apply reachable_well_formed. Qed.

Lemma reachable_chatbot_well_formed_witness :
  well_formed (fst (fst (get_response init [] initial_candidate_info))).
Proof.
  apply reachable_chatbot_well_formed.
  apply reachable_step; [apply reachable_init|].
  eexists. vm_compute. reflexivity.
Defined.

(** X12.  On a chatbot object that calls of [get_response] produce from a
    new one, with dictionaries that have an [experience] entry, a further
    call with such a dictionary never raises: whatever the transcript, it
    returns a reply. *)
Theorem reachable_chatbot_never_raises (self : chatbot) (messages : list Message)
    (info : gmap string pyval) :
  reachable self ->
  is_Some (info !! "experience") ->
  exists reply, snd (get_response self messages info) = Ok reply.
Proof.
  intros Hr He. apply get_response_well_formed; [|exact He].
  now apply reachable_well_formed.
Qed.

Lemma reachable_chatbot_never_raises_witness :
  exists reply,
    snd (get_response (fst (fst (get_response init [] initial_candidate_info)))
                      [user_says "Ada Lovelace"] initial_candidate_info) = Ok reply.
Proof.
  apply reachable_chatbot_never_raises.
  - apply reachable_step; [apply reachable_init|].
    eexists. vm_compute. reflexivity.
  - eexists. vm_compute. reflexivity.
Defined.

(** ** Whole conversations *)

Section Conversation.

Lemma get_response_step (self : chatbot) (messages : list Message)
    (info : gmap string pyval) :
  conversation_started (fst (fst (get_response self messages info))) = true
  /\ (current_step (fst (fst (get_response self messages info))) = current_step self
      \/ current_step (fst (fst (get_response self messages info)))
         = determine_next_step (current_step self)).
Proof.
  unfold get_response. cbv zeta.
  destruct (conversation_started self) eqn:Hs; cbn [negb]; [|now split; [|left]].
  destruct (should_end_conversation _); [now split; [|left]|].
  destruct (current_step self =? "tech_questions")%string.
  - destruct (handle_tech_questions_step self info (last_content messages)) as [H1 H2].
    split; [now rewrite H2 | now left].
  - destruct (validate_response _ _); cbn [negb]; [|now split; [|left]].
    destruct (current_step (with_step _ self) =? "tech_questions")%string.
    + destruct (handle_tech_questions_step
                  (with_step (determine_next_step (current_step self)) self)
                  (update_candidate_info (current_step self) (last_content messages) info)
                  "") as [H1 H2].
      destruct (handle_tech_questions _ _ _) as [[s i] r]. cbn [fst snd] in *.
      split; [now rewrite H2 | right; exact H1].
    + split; [exact Hs | now right].
Qed.

Lemma get_response_advance (self : chatbot) (messages : list Message)
    (info : gmap string pyval) :
  conversation_started self = true ->
  In (current_step self) ["name"; "email"; "phone"; "experience"; "position"; "location"] ->
  validate_response (current_step self) (last_content messages) = true ->
  should_end_conversation (last_content messages) = false ->
  get_response self messages info
  = (with_step (determine_next_step (current_step self)) self, info,
     Ok ("Thank you. " +:+ get_next_question (determine_next_step (current_step self)))).
Proof.
  intros Hs Hin Hv He.
  assert (Hne : current_step self <> "tech_questions").
  { intros E. rewrite E in Hin. simpl in Hin. intuition discriminate. }
  rewrite (get_response_accepted self messages info Hs He Hne Hv).
  clear Hv Hne. simpl in Hin.
  repeat (destruct Hin as [<-|Hin]; [reflexivity|]).
  contradiction.
Qed.

End Conversation.

(** X13.  A call of [get_response] never moves the current step backwards
    and never skips a step: from position [i] of the sequence the step
    stays at [i] or goes to [i + 1].  After any call the conversation counts
    as started. *)
Theorem step_never_goes_back (self : chatbot) (messages : list Message)
    (info : gmap string pyval) (i : nat) :
  step_index (current_step self) = Some i ->
  (exists j, step_index (current_step (fst (fst (get_response self messages info))))
             = Some j /\ (i <= j <= i + 1)%nat)
  /\ conversation_started (fst (fst (get_response self messages info))) = true.
Proof.
  intros Hi. destruct (get_response_step self messages info) as [Hs [H|H]].
  - split; [|exact Hs]. exists i. rewrite H. split; [exact Hi | lia].
  - split; [|exact Hs]. exists (Nat.min (i + 1) 7). rewrite H.
    split; [now apply determine_next_step_index|].
    assert (i <= 7)%nat; [|lia].
    clear -Hi. unfold step_index in Hi.
    revert Hi. generalize (current_step self). intros s Hi.
    destruct (step_cases s) as [Hin|[_ Hn]]; [|congruence].
    simpl in Hin.
    repeat (destruct Hin as [<-|Hin]; [injection Hi as <-; lia|]).
    contradiction.
Qed.

Lemma step_never_goes_back_witness :
  (exists j, step_index (current_step
                           (fst (fst (get_response (with_step "position" init) []
                                                   initial_candidate_info))))
             = Some j /\ (4 <= j <= 4 + 1)%nat)
  /\ conversation_started
       (fst (fst (get_response (with_step "position" init) []
                               initial_candidate_info))) = true.
Proof.
  apply (step_never_goes_back (with_step "position" init) [] initial_candidate_info 4).
  reflexivity.
Defined.

(** X14.  A whole intake.  On a new chatbot object the first call gives the
    greeting, whatever the transcript.  If the next six transcripts end in
    answers that are valid for [name], [email], [phone], [experience],
    [position] and [location] in turn, and the seventh in a non-empty answer,
    none with an exit keyword, then the replies are the six prompts that
    follow, each behind ["Thank you. "], and the introduction with question 1;
    the chatbot ends at step [tech_questions] with the questions generated
    from the seventh answer, and the caller's dictionary is the same as at
    the start. *)
Theorem intake_reaches_technical_questions (info : gmap string pyval)
    (experience : pyval) (first : list Message) (early : list (list Message))
    (final : list Message) :
  info !! "experience" = Some experience ->
  Forall2 (fun step turn =>
             validate_response step (last_content turn) = true
             /\ should_end_conversation (last_content turn) = false)
          ["name"; "email"; "phone"; "experience"; "position"; "location"] early ->
  last_content final <> "" ->
  should_end_conversation (last_content final) = false ->
  exists q,
    generate_tech_questions
      (map PyStr.strip (PyStr.split "," (last_content final))) experience !! 0%nat
    = Some q
    /\ converse init info (first :: early ++ [final])
       = (mkChatbot true "tech_questions"
            (Questions (generate_tech_questions
                          (map PyStr.strip (PyStr.split "," (last_content final)))
                          experience)) 0,
          info,
          Ok get_initial_greeting
          :: map (fun step => Ok ("Thank you. " +:+ get_next_question step))
                 ["email"; "phone"; "experience"; "position"; "location"; "tech_stack"]
          ++ [Ok (intro_message
                    (map PyStr.strip (PyStr.split "," (last_content final))) q)]).
Proof.
  intros Hexp Hearly Hne Hend.
  repeat match goal with
         | H : Forall2 _ (_ :: _) _ |- _ =>
             apply Forall2_cons_inv_l in H as (? & ? & [? ?] & ? & ->)
         | H : Forall2 _ [] _ |- _ => apply Forall2_nil_inv_l in H as ->
         end.
  destruct (handle_tech_questions_first
              (mkChatbot true "tech_questions" EmptyDict 0)
              (update_candidate_info "tech_stack" (last_content final) info) ""
              (VList (map PyStr.strip (PyStr.split "," (last_content final))))
              experience
              (map PyStr.strip (PyStr.split "," (last_content final))))
    as (q & Hq & Hh).
  { reflexivity. }
  { apply update_candidate_info_tech_stack. }
  { reflexivity. }
  { rewrite update_candidate_info_other by discriminate. now rewrite Hexp. }
  exists q. split; [exact Hq|].
  cbn [converse app].
  change (get_response init first info)
    with (with_started true init, info, Ok get_initial_greeting).
  cbv beta iota zeta.
  repeat (rewrite get_response_advance; [|reflexivity|simpl; tauto|assumption|assumption];
          cbn [with_step with_started init current_step conversation_started
                 tech_questions_cache current_question_index];
          match goal with
          | |- context [determine_next_step ?s] =>
              let n := eval vm_compute in (determine_next_step s) in
              change (determine_next_step s) with n
          end;
          cbv beta iota zeta).
  change (with_step "tech_stack"
            (with_step "location"
               (with_step "position"
                  (with_step "experience"
                     (with_step "phone" (with_step "email" (with_started true init)))))))
    with (mkChatbot true "tech_stack" EmptyDict 0).
  rewrite (get_response_accepted (mkChatbot true "tech_stack" EmptyDict 0) final info);
    [|reflexivity|assumption|discriminate|].
  2:{ unfold validate_response. cbn [current_step].
      destruct (String.eqb_spec (last_content final) ""); [contradiction | reflexivity]. }
  cbn [current_step with_step conversation_started tech_questions_cache
         current_question_index].
  change (determine_next_step "tech_stack") with "tech_questions".
  change ("tech_questions" =? "tech_questions")%string with true. cbv iota.
  change (with_step "tech_questions" (mkChatbot true "tech_stack" EmptyDict 0))
    with (mkChatbot true "tech_questions" EmptyDict 0).
  rewrite Hh. reflexivity.
Qed.

Lemma intake_reaches_technical_questions_witness :
  exists q,
    generate_tech_questions
      (map PyStr.strip (PyStr.split "," (last_content [user_says "Coq, OCaml"])))
      (VStr "") !! 0%nat = Some q
    /\ converse init initial_candidate_info
         ([] :: [[user_says "Ada"]; [user_says "a@b.c"]; [user_says "0123456789"];
                 [user_says "3 years"]; [user_says "prover"]; [user_says "Paris"]]
             ++ [[user_says "Coq, OCaml"]])
       = (mkChatbot true "tech_questions"
            (Questions (generate_tech_questions
                          (map PyStr.strip
                               (PyStr.split "," (last_content [user_says "Coq, OCaml"])))
                          (VStr ""))) 0,
          initial_candidate_info,
          Ok get_initial_greeting
          :: map (fun step => Ok ("Thank you. " +:+ get_next_question step))
                 ["email"; "phone"; "experience"; "position"; "location"; "tech_stack"]
          ++ [Ok (intro_message
                    (map PyStr.strip
                         (PyStr.split "," (last_content [user_says "Coq, OCaml"]))) q)]).
Proof.
  apply (intake_reaches_technical_questions initial_candidate_info (VStr "") []).
  - vm_compute. reflexivity.
  - repeat constructor; reflexivity.
  - discriminate.
  - reflexivity.
Defined.

(** ** Trimming and splitting *)

Section Trim.

Lemma lstrip_idem (s : string) : PyStr.lstrip (PyStr.lstrip s) = PyStr.lstrip s.
Proof.
  induction s as [|c s IH]; [reflexivity|]. simpl.
  destruct (PyStr.isspace c) eqn:E; [exact IH|]. simpl. now rewrite E.
Qed.

Lemma rstrip_cons (c : ascii) (s : string) :
  PyStr.rstrip (String c s)
  = match PyStr.rstrip s with
    | EmptyString => if PyStr.isspace c then "" else String c ""
    | r => String c r
    end.
Proof. reflexivity. Qed.

Lemma rstrip_idem (s : string) : PyStr.rstrip (PyStr.rstrip s) = PyStr.rstrip s.
Proof.
  induction s as [|c s IH]; [reflexivity|]. rewrite rstrip_cons.
  destruct (PyStr.rstrip s) as [|d r] eqn:E.
  - destruct (PyStr.isspace c) eqn:Ec; [reflexivity|].
    rewrite rstrip_cons. simpl. now rewrite Ec.
  - rewrite rstrip_cons, IH. reflexivity.
Qed.

Lemma rstrip_lstrip (s : string) :
  PyStr.rstrip (PyStr.lstrip s) = PyStr.lstrip (PyStr.rstrip s).
Proof.
  induction s as [|c s IH]; [reflexivity|]. rewrite rstrip_cons. simpl PyStr.lstrip at 1.
  destruct (PyStr.isspace c) eqn:Ec.
  - rewrite IH. destruct (PyStr.rstrip s) as [|d r]; [reflexivity|].
    simpl. now rewrite Ec.
  - rewrite rstrip_cons.
    destruct (PyStr.rstrip s) as [|d r]; rewrite ?Ec; simpl; now rewrite Ec.
Qed.

Lemma strip_idem (s : string) : PyStr.strip (PyStr.strip s) = PyStr.strip s.
Proof.
  unfold PyStr.strip. now rewrite rstrip_lstrip, rstrip_idem, lstrip_idem.
Qed.

Lemma concat_cons2 (sep x y : string) (l : list string) :
  String.concat sep (x :: y :: l) = x +:+ sep +:+ String.concat sep (y :: l).
Proof. reflexivity. Qed.

Lemma join_fields (sep : ascii) (s : string) :
  PyStr.join (String sep "") (fst (PyStr.fields sep s) :: snd (PyStr.fields sep s)) = s.
Proof.
  unfold PyStr.join. induction s as [|c s IH]; [reflexivity|]. simpl PyStr.fields.
  destruct (PyStr.fields sep s) as [w ws]. cbn [fst snd] in *.
  destruct (Ascii.eqb_spec c sep) as [->|Hc]; cbn [fst snd].
  - rewrite concat_cons2, IH. reflexivity.
  - destruct ws as [|y ws].
    + simpl in *. now rewrite IH.
    + rewrite concat_cons2 in *. now rewrite app_cons, IH.
Qed.

Lemma join_split (sep : ascii) (s : string) :
  PyStr.join (String sep "") (PyStr.split sep s) = s.
Proof.
  unfold PyStr.split. pose proof (join_fields sep s) as H.
  now destruct (PyStr.fields sep s).
Qed.

Lemma split_length (sep : ascii) (s : string) :
  length (PyStr.split sep s) = S (String.length (PyStr.filter (fun c => Ascii.eqb c sep) s)).
Proof.
  unfold PyStr.split.
  assert (H : length (snd (PyStr.fields sep s))
              = String.length (PyStr.filter (fun c => Ascii.eqb c sep) s)).
  { induction s as [|c s IH]; [reflexivity|]. simpl.
    destruct (PyStr.fields sep s) as [w ws]. cbn [snd] in *.
    destruct (Ascii.eqb c sep); cbn [snd length String.length]; now rewrite IH. }
  destruct (PyStr.fields sep s) as [w ws]. cbn [snd length] in *. now rewrite H.
Qed.

Lemma split_no_sep (sep : ascii) (s : string) :
  Forall (fun t => PyStr.any (fun c => Ascii.eqb c sep) t = false) (PyStr.split sep s).
Proof.
  unfold PyStr.split.
  assert (H : PyStr.any (fun c => Ascii.eqb c sep) (fst (PyStr.fields sep s)) = false
              /\ Forall (fun t => PyStr.any (fun c => Ascii.eqb c sep) t = false)
                        (snd (PyStr.fields sep s))).
  { induction s as [|c s IH]; [now split|]. simpl.
    destruct (PyStr.fields sep s) as [w ws]. cbn [fst snd] in *.
    destruct IH as [Hw Hws].
    destruct (Ascii.eqb c sep) eqn:E; cbn [fst snd].
    - split; [reflexivity | now constructor].
    - split; [simpl; now rewrite E, Hw | exact Hws]. }
  destruct (PyStr.fields sep s) as [w ws]. cbn [fst snd] in H.
  destruct H. now constructor.
Qed.

End Trim.

(** X15.  The list stored for a tech-stack answer has one entry more than
    the answer has commas, so it is never empty; no entry contains a comma
    or has white space at either end (trimming an entry again changes
    nothing); and joining the untrimmed pieces with commas gives the answer
    back. *)
Theorem tech_stack_entries (x : string) :
  length (map PyStr.strip (PyStr.split "," x))
  = S (String.length (PyStr.filter (fun c => Ascii.eqb c ",") x))
  /\ Forall (fun t => PyStr.strip t = t
                      /\ PyStr.any (fun c => Ascii.eqb c ",") t = false)
            (map PyStr.strip (PyStr.split "," x))
  /\ PyStr.join "," (PyStr.split "," x) = x.
Proof.
  split; [|split].
  - rewrite length_map. apply split_length.
  - apply Forall_map. eapply Forall_impl; [apply split_no_sep|].
    intros t Ht. cbn beta. split; [apply strip_idem|].
    eapply any_false_of; [apply any_strip | exact Ht].
  - apply (join_split ","%char).
Qed.

(** ** More on the sanitizer *)

Section SanitizerMore.

Lemma sanitize_input_no_special (text : string) :
  PyStr.any Utils.is_special (Utils.sanitize_input text) = false.
Proof.
  unfold Utils.sanitize_input, Utils.sub_special.
  eapply any_false_of; [apply any_strip | apply any_filter_negb].
Qed.

Lemma sub_tags_length (b : bool) (s : string) :
  (String.length (Utils.sub_tags b s) <= String.length s)%nat.
Proof.
  revert b. induction s as [|c s IH]; intros b; simpl; [now destruct b|].
  destruct b.
  - specialize (IH (negb (Utils.is_gt c))). lia.
  - destruct (Ascii.eqb c "<" && PyStr.any Utils.is_gt s).
    + specialize (IH true). lia.
    + specialize (IH false). simpl. lia.
Qed.

Lemma pyfilter_length (p : ascii -> bool) (s : string) :
  (String.length (PyStr.filter p s) <= String.length s)%nat.
Proof.
  induction s as [|c s IH]; simpl; [lia|]. destruct (p c); simpl; lia.
Qed.

Lemma lstrip_length (s : string) :
  (String.length (PyStr.lstrip s) <= String.length s)%nat.
Proof.
  induction s as [|c s IH]; simpl; [lia|]. destruct (PyStr.isspace c); simpl; lia.
Qed.

Lemma rstrip_length (s : string) :
  (String.length (PyStr.rstrip s) <= String.length s)%nat.
Proof.
  induction s as [|c s IH]; [simpl; lia|]. rewrite rstrip_cons.
  destruct (PyStr.rstrip s) as [|d r].
  - destruct (PyStr.isspace c); simpl; lia.
  - simpl in *. lia.
Qed.

End SanitizerMore.

(** X16.  Sanitizing is idempotent: a text that has been through
    [sanitize_input] comes out of a second pass unchanged. *)
Theorem sanitize_input_idempotent (text : string) :
  Utils.sanitize_input (Utils.sanitize_input text) = Utils.sanitize_input text.
Proof.
  pose proof (has_tag_sanitize_input text) as Htag.
  pose proof (sanitize_input_no_special text) as Hsp.
  assert (Hstrip : PyStr.strip (Utils.sanitize_input text) = Utils.sanitize_input text).
  { unfold Utils.sanitize_input. apply strip_idem. }
  generalize dependent (Utils.sanitize_input text). intros u Htag Hsp Hstrip.
  unfold Utils.sanitize_input, Utils.sub_special.
  now rewrite sub_tags_tag_free, filter_id.
Qed.

(** X17.  [sanitize_input] only deletes: the result is never longer than the
    text, and a character of any kind occurs in the result only if one of
    that kind occurs in the text. *)
Theorem sanitize_input_only_deletes (text : string) (p : ascii -> bool) :
  (String.length (Utils.sanitize_input text) <= String.length text)%nat
  /\ (PyStr.any p (Utils.sanitize_input text) = true -> PyStr.any p text = true).
Proof.
  unfold Utils.sanitize_input, Utils.sub_special, PyStr.strip. split.
  - etransitivity; [apply lstrip_length|].
    etransitivity; [apply rstrip_length|].
    etransitivity; [apply pyfilter_length|]. apply sub_tags_length.
  - intros H. now apply any_lstrip, any_rstrip, any_filter, any_sub_tags in H.
Qed.

(** ** Letter case *)

Section Case.

Lemma lower_char_idem (c : ascii) :
  PyStr.lower_char (PyStr.lower_char c) = PyStr.lower_char c.
Proof. destruct c as [[] [] [] [] [] [] [] []]; vm_compute; reflexivity. Qed.

Lemma isspace_lower_char_eq (c : ascii) :
  PyStr.isspace (PyStr.lower_char c) = PyStr.isspace c.
Proof. destruct c as [[] [] [] [] [] [] [] []]; vm_compute; reflexivity. Qed.

Lemma lower_idem (s : string) : PyStr.lower (PyStr.lower s) = PyStr.lower s.
Proof.
  induction s as [|c s IH]; [reflexivity|]. simpl. now rewrite lower_char_idem, IH.
Qed.

Lemma lower_lstrip (s : string) :
  PyStr.lower (PyStr.lstrip s) = PyStr.lstrip (PyStr.lower s).
Proof.
  induction s as [|c s IH]; [reflexivity|]. simpl.
  rewrite isspace_lower_char_eq. destruct (PyStr.isspace c); [exact IH | reflexivity].
Qed.

Lemma lower_rstrip (s : string) :
  PyStr.lower (PyStr.rstrip s) = PyStr.rstrip (PyStr.lower s).
Proof.
  induction s as [|c s IH]; [reflexivity|].
  change (PyStr.lower (String c s)) with (String (PyStr.lower_char c) (PyStr.lower s)).
  rewrite !rstrip_cons, <- IH, isspace_lower_char_eq.
  destruct (PyStr.rstrip s) as [|d r]; [now destruct (PyStr.isspace c) | reflexivity].
Qed.

Lemma lower_strip (s : string) :
  PyStr.lower (PyStr.strip s) = PyStr.strip (PyStr.lower s).
Proof. unfold PyStr.strip. now rewrite lower_lstrip, lower_rstrip. Qed.

End Case.

(** X18.  Every entry that [validate_tech_stack] returns is non-empty, in
    lower case and free of surrounding white space; and the entries are
    exactly the non-empty lower-cased forms of the entries the chatbot
    stores for the same text. *)
Theorem validate_tech_stack_entries (tech_stack : string) (t : string) :
  (t ∈ Utils.validate_tech_stack tech_stack
   <-> t <> "" /\ exists e, In e (map PyStr.strip (PyStr.split "," tech_stack))
                            /\ t = PyStr.lower e)
  /\ (t ∈ Utils.validate_tech_stack tech_stack ->
      t <> "" /\ PyStr.lower t = t /\ PyStr.strip t = t).
Proof.
  assert (Hiff : t ∈ Utils.validate_tech_stack tech_stack
                 <-> t <> "" /\ exists e, In e (map PyStr.strip (PyStr.split "," tech_stack))
                                          /\ t = PyStr.lower e).
  { unfold Utils.validate_tech_stack. cbv zeta.
    rewrite elem_of_list_to_set, list_elem_of_In, filter_In, in_map_iff. split.
    - intros [(e & <- & He) Hne]. split.
      + destruct (String.eqb_spec (PyStr.lower (PyStr.strip e)) ""); [discriminate|assumption].
      + exists (PyStr.strip e). split; [now apply in_map | reflexivity].
    - intros [Hne (e & He & ->)]. apply in_map_iff in He as (e0 & <- & He0). split.
      + now exists e0.
      + now destruct (String.eqb_spec (PyStr.lower (PyStr.strip e0)) ""). }
  split; [exact Hiff|].
  intros H. apply Hiff in H as [Hne (e & He & ->)]. split; [exact Hne|].
  apply in_map_iff in He as (e0 & <- & _). split.
  - apply lower_idem.
  - now rewrite <- lower_strip, strip_idem.
Qed.

(** X19.  The sentiment tag does not depend on letter case. *)
Theorem analyze_sentiment_ignores_case (text : string) :
  Utils.analyze_sentiment (PyStr.lower text) = Utils.analyze_sentiment text.
Proof. unfold Utils.analyze_sentiment. now rewrite lower_idem. Qed.

(** ** Sessions of the web app *)

Section AppSession.

Lemma initial_experience : initial_candidate_info !! "experience" = Some (VStr "").
Proof. vm_compute. reflexivity. Qed.

Lemma get_response_frame (self : chatbot) (messages : list Message)
    (info : gmap string pyval) (k : string) :
  k <> "tech_questions_asked" ->
  snd (fst (get_response self messages info)) !! k = info !! k.
Proof.
  intros Hk.
  assert (H : snd (fst (get_response self messages info)) = info
              \/ snd (fst (get_response self messages info))
                 = <["tech_questions_asked" := VBool true]> info).
  { unfold get_response. cbv zeta.
    destruct (conversation_started self); cbn [negb]; [|now left].
    destruct (should_end_conversation _); [now left|].
    destruct (current_step self =? "tech_questions")%string.
    - destruct (handle_tech_questions_frame self info (last_content messages))
        as [Hf|(Hf & _)]; [now left | now right].
    - destruct (validate_response _ _); cbn [negb]; [|now left].
      destruct (current_step (with_step _ self) =? "tech_questions")%string; [|now left].
      destruct (handle_tech_questions _ _ _) as [[self' copy'] reply]. now left. }
  destruct H as [->| ->]; [reflexivity|]. now rewrite lookup_insert_ne.
Qed.

Lemma on_prompt_ok (prompt : string) (st : App.session) (history : list string) :
  App.session_ok st history ->
  prompt <> "" ->
  exists reply,
    snd (App.on_prompt prompt st) = App.Replied reply
    /\ App.messages (fst (App.on_prompt prompt st))
       = (App.messages st
          ++ [mkMessage "user" (Utils.sanitize_input prompt)
                        (Some (Utils.analyze_sentiment (Utils.sanitize_input prompt)));
              mkMessage "assistant" reply None])%list
    /\ App.session_ok (fst (App.on_prompt prompt st))
         (history ++ [Utils.analyze_sentiment (Utils.sanitize_input prompt)]).
Proof.
  intros (Hr & Hh & Hrest) Hp. unfold App.on_prompt. cbv zeta.
  destruct (String.eqb_spec prompt "") as [|_]; [contradiction|].
  rewrite Hh.
  set (sentiment := Utils.analyze_sentiment (Utils.sanitize_input prompt)).
  set (info := <["sentiment_history" := VList (history ++ [sentiment])]>
                 (App.candidate_info st)).
  set (msgs := (App.messages st
                ++ [mkMessage "user" (Utils.sanitize_input prompt) (Some sentiment)])%list).
  assert (He : is_Some (info !! "experience")).
  { unfold info. rewrite lookup_insert_ne by discriminate.
    rewrite Hrest by discriminate. exists (VStr ""). apply initial_experience. }
  pose proof (get_response_well_formed (App.bot st) msgs info
                (reachable_well_formed _ Hr) He) as [_ [reply Hreply]].
  pose proof (reachable_step (App.bot st) msgs info Hr He) as Hr'.
  pose proof (get_response_frame (App.bot st) msgs info) as Hframe.
  destruct (get_response (App.bot st) msgs info) as [[bot' info'] out].
  cbn [fst snd] in *. subst out. exists reply. cbn [fst snd App.messages].
  split; [reflexivity|]. split.
  - unfold msgs. now rewrite <- app_assoc.
  - unfold App.session_ok. cbn [App.bot App.candidate_info].
    split; [exact Hr'|]. split.
    + rewrite Hframe by discriminate. unfold info. apply lookup_insert_eq.
    + intros k Hk1 Hk2. rewrite Hframe by exact Hk2.
      unfold info. rewrite lookup_insert_ne by congruence. now apply Hrest.
Qed.

Lemma on_prompts_cons (p : string) (ps : list string) (st : App.session) :
  App.on_prompts (p :: ps) st
  = (fst (App.on_prompts ps (fst (App.on_prompt p st))),
     snd (App.on_prompt p st) :: snd (App.on_prompts ps (fst (App.on_prompt p st)))).
Proof.
  cbn [App.on_prompts]. destruct (App.on_prompt p st) as [st1 r]. cbn [fst snd].
  now destruct (App.on_prompts ps st1).
Qed.

Lemma on_prompts_ok (prompts : list string) :
  forall (st : App.session) (history : list string),
    App.session_ok st history ->
    Forall (fun r => r = App.Idle \/ exists reply, r = App.Replied reply)
           (snd (App.on_prompts prompts st))
    /\ App.session_ok (fst (App.on_prompts prompts st))
         (history ++ map (fun p => Utils.analyze_sentiment (Utils.sanitize_input p))
                         (App.submitted prompts))
    /\ length (App.messages (fst (App.on_prompts prompts st)))
       = (length (App.messages st) + 2 * length (App.submitted prompts))%nat.
Proof.
  induction prompts as [|p ps IH]; intros st history Hok.
  - simpl. rewrite app_nil_r. split; [constructor|]. split; [exact Hok | lia].
  - rewrite on_prompts_cons. cbn [fst snd App.submitted List.filter].
    destruct (String.eqb_spec p "") as [->|Hp]; cbn [negb].
    + change (App.on_prompt "" st) with (st, App.Idle). cbn [fst snd].
      destruct (IH st history Hok) as (H1 & H2 & H3).
      split; [constructor; [now left | exact H1]|]. split; assumption.
    + destruct (on_prompt_ok p st history Hok Hp) as (reply & Hr & Hm & Hok').
      destruct (IH _ _ Hok') as (H1 & H2 & H3).
      split; [constructor; [right; eauto | exact H1]|]. split.
      * cbn [map]. now rewrite <- app_assoc in H2.
      * rewrite H3, Hm, length_app. cbn [length]. unfold App.submitted. lia.
Qed.

Lemma initial_session_ok : App.session_ok App.initialize_session_state [].
Proof.
  split; [apply reachable_init|]. split; [vm_compute; reflexivity|]. reflexivity.
Qed.

End AppSession.

(** X20.  In a session of the web app, from its initial state, every
    submitted prompt is answered with a reply: whatever is typed, no call
    raises and nothing is reported as an error; and the transcript grows by
    exactly two messages per submitted prompt. *)
Theorem app_every_prompt_is_answered (prompts : list string) :
  Forall (fun r => r = App.Idle \/ exists reply, r = App.Replied reply)
         (snd (App.on_prompts prompts App.initialize_session_state))
  /\ length (App.messages (fst (App.on_prompts prompts App.initialize_session_state)))
     = (2 * length (App.submitted prompts))%nat.
Proof.
  destruct (on_prompts_ok prompts _ _ initial_session_ok) as (H1 & _ & H3).
  split; [exact H1 | exact H3].
Qed.

(** X21.  In a session of the web app, from its initial state, the
    candidate dictionary never receives the answers: after any prompts its name, e-mail, phone, experience, position
    and location are still the empty text and its tech stack is still the
    empty list.  Only the sentiment history changes: it holds, in order, the
    sentiment of each submitted prompt after sanitizing. *)
Theorem app_record_never_filled (prompts : list string) :
  (forall k, In k ["name"; "email"; "phone"; "experience"; "position"; "location"] ->
     App.candidate_info (fst (App.on_prompts prompts App.initialize_session_state)) !! k
     = Some (VStr ""))
  /\ App.candidate_info (fst (App.on_prompts prompts App.initialize_session_state))
     !! "tech_stack" = Some (VList [])
  /\ App.candidate_info (fst (App.on_prompts prompts App.initialize_session_state))
     !! "sentiment_history"
     = Some (VList (map (fun p => Utils.analyze_sentiment (Utils.sanitize_input p))
                        (App.submitted prompts))).
Proof.
  destruct (on_prompts_ok prompts _ _ initial_session_ok) as (_ & (_ & Hh & Hrest) & _).
  split; [|split].
  - intros k Hk. simpl in Hk.
    repeat (destruct Hk as [<-|Hk]; [now rewrite Hrest by discriminate|]).
    contradiction.
  - now rewrite Hrest by discriminate.
  - exact Hh.
Qed.

(** X22.  The first prompt submitted in a session is answered with the
    greeting and is not taken as the name: the chatbot is still at step
    [name] afterwards, whatever was typed. *)
Theorem app_first_prompt_gets_greeting (prompt : string) :
  prompt <> "" ->
  App.on_prompt prompt App.initialize_session_state
  = (App.mkSession
       [mkMessage "user" (Utils.sanitize_input prompt)
                  (Some (Utils.analyze_sentiment (Utils.sanitize_input prompt)));
        mkMessage "assistant" get_initial_greeting None]
       (mkChatbot true "name" EmptyDict 0)
       (<["sentiment_history" :=
            VList [Utils.analyze_sentiment (Utils.sanitize_input prompt)]]>
          initial_candidate_info),
     App.Replied get_initial_greeting).
Proof.
  intros Hp. unfold App.on_prompt. cbv zeta.
  destruct (String.eqb_spec prompt "") as [|_]; [contradiction|].
  change (App.candidate_info App.initialize_session_state !! "sentiment_history")
    with (initial_candidate_info !! "sentiment_history").
  replace (initial_candidate_info !! "sentiment_history") with (Some (VList []))
    by (vm_compute; reflexivity).
  reflexivity.
Qed.

Lemma app_first_prompt_gets_greeting_witness :
  snd (App.on_prompt "John Smith" App.initialize_session_state)
  = App.Replied get_initial_greeting.
Proof.
  rewrite (app_first_prompt_gets_greeting "John Smith") by discriminate.
  reflexivity.
Defined.

(** ** Turns that change nothing, and what a turn looks at *)

Section TurnMore.

Lemma get_response_exit (self : chatbot) (messages : list Message)
    (info : gmap string pyval) :
  conversation_started self = true ->
  should_end_conversation (last_content messages) = true ->
  get_response self messages info = (self, info, Ok farewell).
Proof. intros Hs He. unfold get_response. cbv zeta. now rewrite Hs, He. Qed.

Lemma contains_goodbye (s : string) :
  PyStr.contains "goodbye" s = true -> PyStr.contains "bye" s = true.
Proof.
  rewrite !contains_iff. intros (pre & post & ->).
  exists (pre +:+ "good"), post. now rewrite sapp_assoc.
Qed.

End TurnMore.

(** X23.  The exit check gives the same answer as a check for [exit],
    [quit], [stop] and [bye] alone: the fifth keyword, [goodbye], never
    changes the outcome, since [bye] occurs wherever it does. *)
Theorem goodbye_keyword_is_redundant (user_input : string) :
  should_end_conversation user_input
  = existsb (fun keyword => PyStr.contains keyword (PyStr.lower user_input))
            ["exit"; "quit"; "stop"; "bye"].
Proof.
  unfold should_end_conversation, exit_keywords. cbn [existsb].
  pose proof (contains_goodbye (PyStr.lower user_input)) as H.
  destruct (PyStr.contains "exit" _), (PyStr.contains "quit" _),
    (PyStr.contains "stop" _), (PyStr.contains "bye" _); try reflexivity.
  destruct (PyStr.contains "goodbye" _); [|reflexivity].
  now specialize (H eq_refl).
Qed.

(** X24.  Once the greeting has been given, an answer without exit keyword
    changes nothing when it is an e-mail answer in which no ["@"] or no
    ["."] occurs, a phone answer with fewer than ten digits, an experience
    answer without a digit, or an empty answer at any step other than
    [tech_questions]: the chatbot object and the dictionary stay as they are
    and the reply is the step's prompt behind
    ["I'm sorry, but I need a valid <step>. "]. *)
Theorem invalid_answer_changes_nothing (self : chatbot) (messages : list Message)
    (info : gmap string pyval) :
  conversation_started self = true ->
  should_end_conversation (last_content messages) = false ->
  (current_step self = "email"
   /\ ((forall a b, last_content messages <> a +:+ "@" +:+ b)
       \/ (forall a b, last_content messages <> a +:+ "." +:+ b)))
  \/ (current_step self = "phone" /\ (digit_count (last_content messages) < 10)%nat)
  \/ (current_step self = "experience" /\ digit_count (last_content messages) = 0%nat)
  \/ (current_step self <> "tech_questions" /\ last_content messages = "") ->
  get_response self messages info
  = (self, info,
     Ok ("I'm sorry, but I need a valid " +:+ current_step self +:+ ". "
         +:+ get_next_question (current_step self))).
Proof.
  intros Hs He Hcase.
  assert (Hstep : current_step self <> "tech_questions").
  { destruct Hcase as [[E _]|[[E _]|[[E _]|[E _]]]]; [rewrite E..|exact E]; discriminate. }
  assert (Hv : validate_response (current_step self) (last_content messages) = false).
  { unfold validate_response.
    destruct (String.eqb_spec (last_content messages) "") as [|Hx]; [reflexivity|].
    destruct Hcase as [[E H]|[[E H]|[[E H]|[_ H]]]]; [rewrite E..|contradiction].
    - change ("email" =? "email")%string with true. cbv iota.
      unfold PyStr.has_char. apply andb_false_iff.
      destruct H as [H|H]; [left | right];
        (destruct (PyStr.contains _ _) eqn:Ec; [|reflexivity]);
        apply contains_iff in Ec as (a & b & Ec); now apply H in Ec.
    - change ("phone" =? "email")%string with false.
      change ("phone" =? "phone")%string with true. cbv iota zeta.
      rewrite digits_length. apply Nat.leb_gt. exact H.
    - change ("experience" =? "email")%string with false.
      change ("experience" =? "phone")%string with false.
      change ("experience" =? "experience")%string with true. cbv iota.
      revert H. generalize (last_content messages). clear. intros s.
      induction s as [|c s IH]; simpl; [reflexivity|].
      destruct (PyStr.isdigit c); simpl; [discriminate | exact IH]. }
  unfold get_response. cbv zeta. rewrite Hs, He, Hv. cbn [negb].
  now destruct (String.eqb_spec (current_step self) "tech_questions").
Qed.

Lemma invalid_answer_changes_nothing_witness :
  get_response (with_step "phone" (with_started true init))
               [user_says "call me maybe"] initial_candidate_info
  = (with_step "phone" (with_started true init), initial_candidate_info,
     Ok "I'm sorry, but I need a valid phone. What's your phone number?").
Proof.
  apply (invalid_answer_changes_nothing
           (with_step "phone" (with_started true init))
           [user_says "call me maybe"] initial_candidate_info).
  - reflexivity.
  - reflexivity.
  - right. left. split; [reflexivity | simpl; lia].
Defined.

(** X25.  An exit keyword ends nothing: the farewell turn leaves no trace,
    and the calls that follow it go on exactly as they would have without
    it. *)
Theorem exit_turn_leaves_no_trace (self : chatbot) (info : gmap string pyval)
    (messages : list Message) (rest : list (list Message)) :
  conversation_started self = true ->
  should_end_conversation (last_content messages) = true ->
  converse self info (messages :: rest)
  = (fst (fst (converse self info rest)), snd (fst (converse self info rest)),
     Ok farewell :: snd (converse self info rest)).
Proof.
  intros Hs He. cbn [converse]. rewrite (get_response_exit _ _ _ Hs He).
  now destruct (converse self info rest) as [[s i] r].
Qed.

Lemma exit_turn_leaves_no_trace_witness :
  converse (with_started true init) initial_candidate_info
           [[user_says "bye"]; [user_says "Ada"]]
  = (with_step "email" (with_started true init), initial_candidate_info,
     [Ok farewell; Ok "Thank you. What's your email address?"]).
Proof.
  rewrite (exit_turn_leaves_no_trace (with_started true init) initial_candidate_info
             [user_says "bye"] [[user_says "Ada"]]) by reflexivity.
  reflexivity.
Defined.

(** X26.  At step [tech_questions] the answer itself is never looked at:
    two transcripts without exit keyword get the same result, so any text,
    the empty one included, counts as an answer to the current question. *)
Theorem technical_answers_are_not_read (self : chatbot)
    (messages messages' : list Message) (info : gmap string pyval) :
  conversation_started self = true ->
  current_step self = "tech_questions" ->
  should_end_conversation (last_content messages) = false ->
  should_end_conversation (last_content messages') = false ->
  get_response self messages info = get_response self messages' info.
Proof.
  intros Hs Hstep He He'. unfold get_response. cbv zeta.
  rewrite Hs, He, He', Hstep. reflexivity.
Qed.

Lemma technical_answers_are_not_read_witness :
  get_response (mkChatbot true "tech_questions" (Questions general_questions) 0)
               [user_says "I read the documentation first."] initial_candidate_info
  = get_response (mkChatbot true "tech_questions" (Questions general_questions) 0)
                 [user_says ""] initial_candidate_info.
Proof.
  apply technical_answers_are_not_read; reflexivity.
Defined.
